(** * da-cloud-cf-gateway: the Worker's request pipeline, embedded and verified

    Source files: [src/index.js] (the gateway) and [src/router.template.js]
    (the template of the static route table [DA_SERVICE_MAP]).

    The embedding follows the JavaScript as written.

    - A JavaScript value is a [value]: undefined, null, booleans, IEEE
      doubles (the kernel's [float]), strings, arrays and records.  A record
      keeps its own properties in key order, because [JSON.stringify] prints
      them in that order.
    - A JavaScript string is the [string] of its UTF-8 bytes (a lone
      surrogate as the three bytes that generalized UTF-8 gives it).
      Every concatenation in the gateway has an ASCII character on one
      side of the seam, and its separators and prefixes are ASCII, so
      appending, splitting and comparing bytes is appending, splitting
      and comparing code units.  [btoa] throws on a code unit above
      U+00FF and [encodeURIComponent] on a lone surrogate.
    - Converting a value to a string (template literals, property keys,
      [btoa], [encodeURIComponent], the URL given to [fetch]) can throw:
      [ToString] has a [Result].
    - [async] functions become computations in the monad [M]: they read and
      write the module's globals ([G_DB], [G_ENV]), append to a trace of the
      effects they perform (database queries, outbound HTTP calls, console
      output) and may throw.
    - What the platform supplies and the repository does not define is a
      class of parameters: number printing, [JSON.parse] and the network
      behind [fetch] ([Runtime]), and the route table of the deployment's
      [router.js] ([Router]). *)

From Stdlib Require Import String Ascii NArith ZArith List Bool Lia DecimalString.
From Stdlib Require Import Floats.PrimFloat Floats.FloatOps Floats.SpecFloat.
From stdpp Require Import gmap strings.

Set Warnings "-register-all".
Local Open Scope Z_scope.

(** ** Strings of the runtime *)

(** Outcome of an expression that may throw; [Throw] carries [e.message]. *)
Inductive Result (A : Type) : Type :=
| Ok (a : A)
| Throw (message : string).
Arguments Ok {A} a.
Arguments Throw {A} message.

(** The double quote, written by its code. *)
Definition dquote : string := String (ascii_of_nat 34) EmptyString.

Definition hex_digit (upper : bool) (n : N) : ascii :=
  if (n <? 10)%N then ascii_of_N (48 + n)
  else ascii_of_N ((if upper then 55 else 87) + n).

(** Two hexadecimal digits of a code unit. *)
Definition hex2 (upper : bool) (c : ascii) : string :=
  let n := N_of_ascii c in
  String (hex_digit upper (n / 16)) (String (hex_digit upper (n mod 16)) EmptyString).

(** ECMA-262 QuoteJSONString, one code unit. *)
Definition quote_char (c : ascii) : string :=
  let n := N_of_ascii c in
  if (n =? 8)%N then "\b"
  else if (n =? 9)%N then "\t"
  else if (n =? 10)%N then "\n"
  else if (n =? 12)%N then "\f"
  else if (n =? 13)%N then "\r"
  else if (n =? 34)%N then "\" +:+ dquote
  else if (n =? 92)%N then "\\"
  else if (n <? 32)%N then "\u00" +:+ hex2 false c
  else String c EmptyString.

(** Whether the bytes [c], [d] open a lone surrogate: ED, then A0..BF. *)
Definition opens_surrogate (c d : ascii) : bool :=
  ((N_of_ascii c =? 237) && (160 <=? N_of_ascii d) && (N_of_ascii d <=? 191))%N.

(** The code unit D800..DFFF that the bytes ED, [d], [e] stand for. *)
Definition surrogate_unit (d e : ascii) : N :=
  (53248 + (N_of_ascii d mod 64) * 64 + N_of_ascii e mod 64)%N.

(** Four hexadecimal digits of a code unit. *)
Definition hex4 (n : N) : string :=
  String (hex_digit false (n / 4096 mod 16))
    (String (hex_digit false (n / 256 mod 16))
       (String (hex_digit false (n / 16 mod 16))
          (String (hex_digit false (n mod 16)) EmptyString))).

(** ECMA-262 QuoteJSONString over the characters: a lone surrogate is
    written as its [\u] escape, every other character by [quote_char]
    (the bytes of a character above U+007F pass unchanged). *)
Fixpoint quote_chars (s : string) : string :=
  match s with
  | EmptyString => EmptyString
  | String c s' =>
      match s' with
      | String d (String e s'') =>
          if opens_surrogate c d
          then "\u" +:+ hex4 (surrogate_unit d e) +:+ quote_chars s''
          else quote_char c +:+ quote_chars s'
      | _ => quote_char c +:+ quote_chars s'
      end
  end.

Definition QuoteJSONString (s : string) : string :=
  dquote +:+ quote_chars s +:+ dquote.

(** [Array.prototype.join] on strings. *)
Fixpoint join (sep : string) (parts : list string) : string :=
  match parts with
  | [] => EmptyString
  | [p] => p
  | p :: rest => p +:+ sep +:+ join sep rest
  end.

(** The base64 alphabet. *)
Definition b64_char (n : N) : ascii :=
  if (n <? 26)%N then ascii_of_N (65 + n)
  else if (n <? 52)%N then ascii_of_N (97 + (n - 26))
  else if (n <? 62)%N then ascii_of_N (48 + (n - 52))
  else if (n =? 62)%N then "+"%char
  else "/"%char.

(** Base64 of a sequence of bytes, padded with [=]. *)
Fixpoint base64 (s : string) : string :=
  match s with
  | EmptyString => EmptyString
  | String a EmptyString =>
      let x := N_of_ascii a in
      String (b64_char (x / 4))
        (String (b64_char ((x mod 4) * 16)) "==")
  | String a (String b EmptyString) =>
      let x := N_of_ascii a in
      let y := N_of_ascii b in
      String (b64_char (x / 4))
        (String (b64_char ((x mod 4) * 16 + y / 16))
           (String (b64_char ((y mod 16) * 4)) "="))
  | String a (String b (String c rest)) =>
      let x := N_of_ascii a in
      let y := N_of_ascii b in
      let z := N_of_ascii c in
      String (b64_char (x / 4))
        (String (b64_char ((x mod 4) * 16 + y / 16))
           (String (b64_char ((y mod 16) * 4 + z / 64))
              (String (b64_char (z mod 64)) (base64 rest))))
  end.

(** The code units of a string as bytes, when all are below U+0100: an
    ASCII byte is its own code unit, C2 or C3 with a continuation byte is
    a code unit from U+0080 to U+00FF, and any other byte begins a
    character above U+00FF. *)
Fixpoint latin1 (s : string) : option string :=
  match s with
  | EmptyString => Some EmptyString
  | String c s' =>
      let n := N_of_ascii c in
      if (n <? 128)%N then option_map (String c) (latin1 s')
      else
        match s' with
        | String d s'' =>
            let m := N_of_ascii d in
            if ((n =? 194) || (n =? 195)) && (128 <=? m) && (m <=? 191)
            then option_map (String (ascii_of_N ((n - 192) * 64 + (m - 128))))
                   (latin1 s'')
            else None
        | EmptyString => None
        end%N
  end.

(** [btoa]: base64 of the code units; an InvalidCharacterError when one
    of them is above U+00FF. *)
Definition btoa (s : string) : Result string :=
  match latin1 s with
  | Some bytes => Ok (base64 bytes)
  | None => Throw "Invalid character"
  end.

(** The characters [encodeURIComponent] leaves alone:
    letters, digits and [- _ . ! ~ * ' ( )]. *)
Definition uri_unreserved (c : ascii) : bool :=
  let n := N_of_ascii c in
  ((65 <=? n) && (n <=? 90) || (97 <=? n) && (n <=? 122)
   || (48 <=? n) && (n <=? 57)
   || (n =? 45) || (n =? 95) || (n =? 46) || (n =? 33) || (n =? 126)
   || (n =? 42) || (n =? 39) || (n =? 40) || (n =? 41))%N.

(** [encodeURIComponent] on one byte of the UTF-8 text: an unreserved
    character stays, every other byte is percent-escaped. *)
Definition encode_unit (c : ascii) : string :=
  if uri_unreserved c then String c EmptyString else "%" +:+ hex2 true c.

(** [encodeURIComponent]: a URIError on a lone surrogate. *)
Fixpoint encodeURIComponent (s : string) : Result string :=
  match s with
  | EmptyString => Ok EmptyString
  | String c s' =>
      if match s' with
         | String d _ => opens_surrogate c d
         | EmptyString => false
         end
      then Throw "URI malformed"
      else match encodeURIComponent s' with
           | Ok rest => Ok (encode_unit c +:+ rest)
           | Throw e => Throw e
           end
  end.

(** [String.prototype.split] with a separator of one character. *)
Fixpoint split (sep : ascii) (s : string) : list string :=
  match s with
  | EmptyString => [EmptyString]
  | String c s' =>
      if Ascii.eqb c sep then EmptyString :: split sep s'
      else match split sep s' with
           | [] => [String c EmptyString]
           | piece :: pieces => String c piece :: pieces
           end
  end.

(** [String.prototype.startsWith]. *)
Definition startsWith (s p : string) : bool := String.prefix p s.


(** Whether a character occurs in a string. *)
Fixpoint has_char (c : ascii) (s : string) : bool :=
  match s with
  | EmptyString => false
  | String c' s' => Ascii.eqb c' c || has_char c s'
  end.

(** ** JavaScript values *)

Inductive value : Type :=
| VUndef
| VNull
| VBool (b : bool)
| VNum (x : float)
| VStr (s : string)
| VArr (items : list value)
| VObj (props : list (string * value)).

(** ToBoolean: what [!v], [v || w] and [if (v)] test. *)
Definition truthy (v : value) : bool :=
  match v with
  | VUndef | VNull => false
  | VBool b => b
  | VNum x => negb (is_zero x || is_nan x)
  | VStr s => negb (String.eqb s "")
  | VArr _ | VObj _ => true
  end.

(** [a || b]. *)
Definition or_else (a b : value) : value := if truthy a then a else b.

(** [a === b] where one side is a primitive.  Two records or arrays are
    equal only as references; the gateway compares a token or a type tag
    with a string, never two references. *)
Definition strict_eq (a b : value) : bool :=
  match a, b with
  | VUndef, VUndef | VNull, VNull => true
  | VBool x, VBool y => Bool.eqb x y
  | VNum x, VNum y => PrimFloat.eqb x y
  | VStr x, VStr y => String.eqb x y
  | _, _ => false
  end.

(** Own properties of a record: first binding of the key. *)
Fixpoint lookup_prop (k : string) (props : list (string * value)) : option value :=
  match props with
  | [] => None
  | (k', v) :: rest => if String.eqb k k' then Some v else lookup_prop k rest
  end.

(** Assignment to a property: an existing key keeps its place, a new key
    goes last. *)
Fixpoint assign_prop (k : string) (v : value) (props : list (string * value))
  : list (string * value) :=
  match props with
  | [] => [(k, v)]
  | (k', v') :: rest =>
      if String.eqb k k' then (k, v) :: rest else (k', v') :: assign_prop k v rest
  end.

Fixpoint remove_prop (k : string) (props : list (string * value))
  : list (string * value) :=
  match props with
  | [] => []
  | (k', v') :: rest =>
      if String.eqb k k' then remove_prop k rest else (k', v') :: remove_prop k rest
  end.

(** [v.k] for the fields the gateway names in its code ([request_id],
    [version], [service], [payload], [type], [action], [token],
    [authKeyEnvName], [channelName], [targetUrl], [table_name], [t1]).
    None of them is a property of the built-in prototypes, so reading one
    off an array or a primitive gives undefined; reading off null or
    undefined is a TypeError. *)
Definition get_field (v : value) (k : string) : Result value :=
  match v with
  | VUndef | VNull => Throw ("Cannot read properties of " +:+
                               (if v is VNull then "null" else "undefined"))
  | VObj props => Ok (default VUndef (lookup_prop k props))
  | _ => Ok VUndef
  end.

(** [v.k = x] in strict mode (the file is an ES module): a TypeError on a
    primitive.  On an array the assignment succeeds and adds a named
    property that [JSON.stringify] never prints and the gateway never
    reads back, so the array's items are all that the model keeps. *)
Definition set_field (v : value) (k : string) (x : value) : Result value :=
  match v with
  | VObj props => Ok (VObj (assign_prop k x props))
  | VArr items => Ok (VArr items)
  | _ => Throw "Cannot create property"
  end.

(** [k in v]: a TypeError unless [v] is a record or an array. *)
Definition has_field (k : string) (v : value) : Result bool :=
  match v with
  | VObj props => Ok (bool_decide (is_Some (lookup_prop k props)))
  | VArr _ => Ok false
  | _ => Throw "Cannot use 'in' operator"
  end.

(** [delete v.k]. *)
Definition delete_field (v : value) (k : string) : Result value :=
  match v with
  | VUndef | VNull => Throw "Cannot convert undefined or null to object"
  | VObj props => Ok (VObj (remove_prop k props))
  | _ => Ok v
  end.

(** ** HTTP messages *)

(** What [handleApi] and the exported [fetch] observe of the inbound request. *)
Record InboundRequest := {
  in_method : string;
  in_pathname : string;                (* new URL(request.url).pathname *)
  in_authorization : option string;    (* request.headers.get("Authorization") *)
  in_json : option value               (* request.json(); None: it rejects *)
}.

(** An outbound request, by the arguments the code gives to [fetch] or to
    [new Request]: [req_url] is the URL text as the code wrote it (the
    platform parses and normalizes it before it connects), [req_headers]
    are the headers the code set. *)
Record Request := {
  req_url : string;
  req_method : string;
  req_headers : list (string * string);
  req_body : option string
}.

(** A response, by the arguments the code gives to [new Response] (the
    platform adds its default headers, such as the content type of a text
    body), or by what [fetch] resolved to. *)
Record Response := {
  resp_status : Z;
  resp_headers : list (string * string);
  resp_body : option string
}.

(** [response.ok]. *)
Definition resp_ok (r : Response) : bool :=
  (200 <=? resp_status r) && (resp_status r <=? 299).

(** [await response.text()]. *)
Definition resp_text (r : Response) : string := default EmptyString (resp_body r).

(** Result of [G_DB.prepare(q).bind(k).all()]: it rejects, or resolves to
    an object whose [results] is a list of rows (or is missing). *)
Inductive D1Outcome : Type :=
| D1Rejects
| D1Resolves (results : option (list value)).

(** The D1 binding [env.DB], by what a query with one bound value returns. *)
Definition D1 : Type := string -> string -> D1Outcome.

(** The [env] argument of the exported [fetch]: the database binding and
    the variables and secrets.  The two are kept apart: a route whose
    [authKeyEnvName] names the database binding itself is outside the model. *)
Record Env := {
  env_DB : option D1;
  env_vars : gmap string value
}.

(** The function-valued members that every ordinary object inherits from
    [Object.prototype], with the name each function prints. *)
Definition Object_prototype_functions : list (string * string) :=
  [("constructor", "Object"); ("toString", "toString"); ("valueOf", "valueOf");
   ("toLocaleString", "toLocaleString"); ("hasOwnProperty", "hasOwnProperty");
   ("isPrototypeOf", "isPrototypeOf");
   ("propertyIsEnumerable", "propertyIsEnumerable");
   ("__defineGetter__", "__defineGetter__"); ("__defineSetter__", "__defineSetter__");
   ("__lookupGetter__", "__lookupGetter__");
   ("__lookupSetter__", "__lookupSetter__")]%string.

(** A built-in function, as the gateway can observe one.  The only values
    the gateway reads through a computed key are credentials, which it
    tests for truthiness and converts to a string; a function and the
    text it prints agree on both. *)
Definition native_function (name : string) : value :=
  VStr ("function " +:+ name +:+ "() { [native code] }").

(** What [obj[name]] finds above the own properties of an ordinary object:
    a function of [Object.prototype], the prototype itself under
    [__proto__] (an object with no property that prints), or nothing. *)
Definition inherited (name : string) : value :=
  match List.find (fun member => String.eqb (fst member) name)
          Object_prototype_functions with
  | Some member => native_function (snd member)
  | None => if String.eqb name "__proto__" then VObj [] else VUndef
  end.

(** [env[name]] for the bindings of [env], an ordinary object: the own
    binding, else what the object inherits. *)
Definition env_lookup (vars : gmap string value) (name : string) : value :=
  match vars !! name with
  | Some v => v
  | None => inherited name
  end.

(** Effects of one request, in order. *)
Inductive event : Type :=
| Query (sql key : string)             (* G_DB.prepare(sql).bind(key).all() *)
| Fetch (r : Request)                  (* fetch called with these arguments *)
| Console (level message : string).

(** The module's globals ([let G_DB], [let G_ENV]; [G_CTX] is never read)
    and the trace. *)
Record State := {
  G_DB : option D1;
  G_ENV : option (gmap string value);
  trace : list event
}.

(** ** The monad of [async] code *)

Definition M (A : Type) : Type := State -> Result A * State.

#[global] Instance M_ret : MRet M := fun A a s => (Ok a, s).

#[global] Instance M_bind : MBind M := fun A B f m s =>
  match m s with
  | (Ok a, s') => f a s'
  | (Throw e, s') => (Throw e, s')
  end.

Definition throw {A : Type} (message : string) : M A := fun s => (Throw message, s).

(** An expression that may throw, run inside an [async] function. *)
Definition lift {A : Type} (r : Result A) : M A := fun s => (r, s).

(** [try { body } catch (e) { handler }]. *)
Definition try_catch {A : Type} (body : M A) (handler : string -> M A) : M A :=
  fun s =>
    match body s with
    | (Ok a, s') => (Ok a, s')
    | (Throw e, s') => handler e s'
    end.

Definition emit (e : event) : M unit :=
  fun s => (Ok tt, {| G_DB := G_DB s; G_ENV := G_ENV s; trace := trace s ++ [e] |}).

Definition console (level message : string) : M unit := emit (Console level message).

Definition read_G_DB : M (option D1) := fun s => (Ok (G_DB s), s).

Definition read_G_ENV : M (option (gmap string value)) := fun s => (Ok (G_ENV s), s).

(** [G_DB = env.DB; G_ENV = env]. *)
Definition set_globals (env : Env) : M unit :=
  fun s => (Ok tt, {| G_DB := env_DB env; G_ENV := Some (env_vars env); trace := trace s |}).

(** [await G_DB.prepare(sql).bind(key).all()], then [results] of what it
    resolves to. *)
Definition d1_all (db : D1) (sql key : string) : M (option (list value)) :=
  emit (Query sql key);;
  match db sql key with
  | D1Rejects => throw "D1_ERROR"
  | D1Resolves results => mret results
  end.

(** [xs[i]] on a list of strings. *)
Definition item (i : nat) (xs : list string) : value :=
  match nth_error xs i with
  | Some s => VStr s
  | None => VUndef
  end.

(** ** Constants of the gateway (index.js, lines 226-229) *)

Definition C_RouteTableName : string := "darouter".
Definition ABLY_PUBLISH_BASE_URL : string := "https://rest.ably.io/channels".
Definition C_GATEWAY_TOKEN_NAME : string := "DA_GATEWAY_TOKEN".

(** ** router.template.js *)

Definition DA_SERVICE_MAP_template : gmap string value :=
  <[ "v99/demorest" :=
       VObj [("type", VStr "REST");
             ("targetUrl", VStr "https://v1-users-api.example.com");
             ("authKeyEnvName", VStr "REST_API_BEARER_TOKEN")] ]>
  (<[ "v88/demoably" :=
       VObj [("type", VStr "ABLY");
             ("authKeyEnvName", VStr "ABLY_API_KEY");
             ("channelName", VStr "system_bus_v1")] ]> ∅).

(** ** What the platform supplies *)

(** The JavaScript engine and the network, as far as the gateway uses them. *)
Class Runtime := {
  (** The engine's Number::toString. *)
  Number_toString : float -> string;
  (** [JSON.parse]; [None] when it throws a SyntaxError. *)
  JSON_parse : string -> option value;
  (** What [fetch] resolves to for the arguments it is called with;
      [None] when it rejects (a URL that does not parse, a header
      value the platform refuses, a host that cannot be reached). *)
  network : Request -> option Response
}.

(** [router.js] of the deployment: a copy of the template, edited by the
    operator.  It is not part of the repository. *)
Class Router := {
  DA_SERVICE_MAP : gmap string value
}.

Section Gateway.

Context {runtime : Runtime} {router : Router}.

(** ToString, as template literals, [btoa], [encodeURIComponent], property
    keys and [fetch] apply it.  A record prints through the [toString] it
    finds: the inherited one gives [[object Object]]; an own [toString]
    key, which holds data and cannot be called, leaves only [valueOf],
    which gives no primitive, and the conversion is a TypeError.  An
    array prints its items joined by commas, null and undefined items as
    nothing, and throws where an item throws. *)
Fixpoint ToString (v : value) : Result string :=
  match v with
  | VUndef => Ok "undefined"
  | VNull => Ok "null"
  | VBool b => Ok (if b then "true" else "false")
  | VNum x => Ok (Number_toString x)
  | VStr s => Ok s
  | VArr items =>
      match
        (fix each (l : list value) : Result (list string) :=
           match l with
           | [] => Ok []
           | x :: l' =>
               match (match x with
                      | VUndef | VNull => Ok EmptyString
                      | _ => ToString x
                      end) with
               | Ok text =>
                   match each l' with
                   | Ok texts => Ok (text :: texts)
                   | Throw e => Throw e
                   end
               | Throw e => Throw e
               end
           end) items
      with
      | Ok texts => Ok (join "," texts)
      | Throw e => Throw e
      end
  | VObj props =>
      match lookup_prop "toString" props with
      | Some _ => Throw "Cannot convert object to primitive value"
      | None => Ok "[object Object]"
      end
  end.

(** ECMA-262 SerializeJSONArray and SerializeJSONObject, after the parts
    are serialized: brackets, separators and, with a gap, line breaks. *)
Definition wrap_parts (opening closing gap stepback : string) (parts : list string)
  : string :=
  match parts with
  | [] => opening +:+ closing
  | _ =>
      if String.eqb gap "" then opening +:+ join "," parts +:+ closing
      else
        let indent := stepback +:+ gap in
        opening +:+ String.String "010" indent
          +:+ join ("," +:+ String.String "010" indent) parts
          +:+ String.String "010" stepback +:+ closing
  end.

(** ECMA-262 SerializeJSONProperty for values without [toJSON]: [None] is
    undefined, which an array prints as null and a record leaves out. *)
Fixpoint SerializeJSONProperty (gap indent : string) (v : value) : option string :=
  match v with
  | VUndef => None
  | VNull => Some "null"
  | VBool b => Some (if b then "true" else "false")
  | VNum x => Some (if is_finite x then Number_toString x else "null")
  | VStr s => Some (QuoteJSONString s)
  | VArr items =>
      Some (wrap_parts "[" "]" gap indent
              ((fix each (l : list value) : list string :=
                  match l with
                  | [] => []
                  | x :: l' =>
                      default "null" (SerializeJSONProperty gap (indent +:+ gap) x)
                        :: each l'
                  end) items))
  | VObj props =>
      Some (wrap_parts "{" "}" gap indent
              ((fix each (l : list (string * value)) : list string :=
                  match l with
                  | [] => []
                  | (k, x) :: l' =>
                      match SerializeJSONProperty gap (indent +:+ gap) x with
                      | Some text =>
                          (QuoteJSONString k +:+ ":"
                             +:+ (if String.eqb gap "" then "" else " ") +:+ text)
                            :: each l'
                      | None => each l'
                      end
                  end) props))
  end.

(** [JSON.stringify(v)]. *)
Definition JSON_stringify (v : value) : option string :=
  SerializeJSONProperty "" "" v.

(** [JSON.stringify(v, null, 2)]. *)
Definition JSON_stringify_2 (v : value) : option string :=
  SerializeJSONProperty "  " "" v.

(** [await fetch(r)]. *)
Definition fetch (r : Request) : M Response :=
  emit (Fetch r);;
  match network r with
  | Some res => mret res
  | None => throw "fetch failed"
  end.

(** [G_ENV[name]]: the name is converted to a property key first. *)
Definition env_get (name : value) : M value :=
  env ← read_G_ENV;
  match env with
  | None => throw "Cannot read properties of null"
  | Some vars =>
      key ← lift (ToString name);
      mret (env_lookup vars key)
  end.

(** [JSON.parse(text)]: the argument is converted to a string first. *)
Definition JSON_parse' (text : value) : M value :=
  text ← lift (ToString text);
  match JSON_parse text with
  | Some v => mret v
  | None => throw "Unexpected token"
  end.

(** ** Utilities (index.js, lines 160-191) *)

Definition jsonResponse (obj : value) (status : Z) : Response :=
  {| resp_status := status;
     resp_headers := [("Content-Type", "application/json")]%string;
     resp_body := JSON_stringify_2 obj |}.

(** [ack(requestId, payload = {})]. *)
Definition ack (requestId payload : value) : Response :=
  jsonResponse
    (VObj [("type", VStr "ack"); ("request_id", requestId); ("payload", payload)])
    200.

Definition nack (requestId : value) (code message : string) : Response :=
  jsonResponse
    (VObj [("type", VStr "nack"); ("request_id", requestId);
           ("payload", VObj [("status", VStr "error"); ("code", VStr code);
                             ("message", VStr message)])])
    400.

Definition base64Encode (str : string) : Result string := btoa str.

(** [jsonError(msg, code = 400)]. *)
Definition jsonError (msg : string) (code : Z) : Response :=
  {| resp_status := code;
     resp_headers := [("Content-Type", "application/json")]%string;
     resp_body := JSON_stringify (VObj [("success", VBool false); ("error", VStr msg)]) |}.

(** [jsonSuccess(data)]: [{ success: true, ...data }], status 200 by default. *)
Definition jsonSuccess (data : list (string * value)) : Response :=
  {| resp_status := 200;
     resp_headers := [("Content-Type", "application/json")]%string;
     resp_body :=
       JSON_stringify
         (VObj (fold_left (fun props kv => assign_prop kv.1 kv.2 props) data
                  [("success", VBool true)])) |}.

(** ** D1 database (index.js, lines 194-220) *)

Definition findRouteFromDB (key : string) : M value :=
  db ← read_G_DB;
  match db with
  | None => mret VNull
  | Some db =>
      try_catch
        (let query := "SELECT t1 FROM " +:+ C_RouteTableName +:+ " WHERE c1 = ? LIMIT 1" in
         results ← d1_all db query key;
         match results with
         | None | Some [] => mret VNull
         | Some (row :: _) =>
             t1 ← lift (get_field row "t1");
             if negb (truthy t1) then mret VNull
             else
               try_catch
                 (config ← JSON_parse' t1;
                  mret config)
                 (fun err =>
                    console "error" ("Invalid JSON in DB for route " +:+ key +:+ ":");;
                    mret VNull)
         end)
        (fun e =>
           console "error" ("DB lookup failed for route: " +:+ key);;
           mret VNull)
  end.

(** ** REST forwarding (index.js, lines 13-30) *)

Definition handleRest (route bodyJson : value) : M Response :=
  routeToken ← lift (get_field route "token");
  routeToken ←
    (if negb (truthy routeToken) || strict_eq routeToken (VStr "") then
       name ← lift (get_field route "authKeyEnvName");
       if truthy name then
         name ← lift (get_field route "authKeyEnvName");
         env_get name
       else mret routeToken
     else mret routeToken);
  let headers := [("Content-Type", "application/json")]%string in
  headers ←
    (if truthy routeToken then
       bearer ← lift (ToString routeToken);
       mret (headers ++ [("Authorization", "Bearer " +:+ bearer)]%string)
     else mret headers);
  targetUrl ← lift (get_field route "targetUrl");
  let body := JSON_stringify bodyJson in
  url ← lift (ToString targetUrl);
  res ← fetch {| req_url := url;
                 req_method := "POST";
                 req_headers := headers;
                 req_body := body |};
  mret res.

(** ** Ably publishing (index.js, lines 34-69) *)

Definition handleAbly (route bodyJson : value) : M Response :=
  routeToken ← lift (get_field route "token");
  routeToken ←
    (if negb (truthy routeToken) || strict_eq routeToken (VStr "") then
       name ← lift (get_field route "authKeyEnvName");
       if truthy name then
         name ← lift (get_field route "authKeyEnvName");
         env_get name
       else mret routeToken
     else mret routeToken);
  channel ← lift (get_field route "channelName");
  channelText ← lift (ToString channel);
  segment ← lift (encodeURIComponent channelText);
  let publishEndpoint := ABLY_PUBLISH_BASE_URL +:+ "/" +:+ segment +:+ "/messages" in
  action ← lift (get_field bodyJson "action");
  let ablyName := or_else action (VStr "gateway-event") in
  let messageBusPayload :=
    JSON_stringify (VArr [VObj [("name", ablyName); ("data", bodyJson)]]) in
  credential ← lift (ToString routeToken);
  basic ← lift (btoa credential);
  let publishRequest :=
    {| req_url := publishEndpoint;
       req_method := "POST";
       req_headers := [("Authorization", "Basic " +:+ basic);
                       ("Content-Type", "application/json")]%string;
       req_body := messageBusPayload |} in
  publishResponse ← fetch publishRequest;
  if resp_ok publishResponse then
    channelText ← lift (ToString channel);
    mret (jsonSuccess
            [("status", VStr "Accepted");
             ("message", VStr ("Event published successfully to Ably channel: "
                                 +:+ channelText))])
  else
    mret (jsonError ("Failed to publish event to Ably: " +:+ resp_text publishResponse)
            502).

(** ** The API handler (index.js, lines 71-138) *)

(** Lines 102-106: the static table first, the database when the table
    gives nothing truthy.  The result is tested by [handleApi] ([!route]).
    A key is [version/service] and so holds a slash: it never names a
    property that the table inherits from [Object.prototype], and the
    lookup is the lookup of an own key. *)
Definition resolveRoute (key : string) : M value :=
  let route := default VUndef (DA_SERVICE_MAP !! key) in
  if negb (truthy route) then findRouteFromDB key else mret route.

(** Lines 111-122: the [table_name] step.  [body.payload] is changed in
    place, so the model returns the body with its payload after the step. *)
Definition injectTableName (route body : value) : M value :=
  try_catch
    (table_name ← lift (get_field route "table_name");
     if truthy table_name then
       payload ← lift (get_field body "payload");
       table_name ← lift (get_field route "table_name");
       payload ← lift (set_field payload "table_name" table_name);
       lift (set_field body "payload" payload)
     else
       payload ← lift (get_field body "payload");
       present ← lift (has_field "table_name" payload);
       if present : bool then
         payload ← lift (get_field body "payload");
         payload ← lift (delete_field payload "table_name");
         lift (set_field body "payload" payload)
       else mret body)
    (fun err =>
       targetUrl ← lift (get_field route "targetUrl");
       targetUrl ← lift (ToString targetUrl);
       console "warn" ("Non-JSON or unparseable body for " +:+ targetUrl
                         +:+ ", skipping modification.");;
       mret body).

(** Lines 133-136: the [catch] of the switch. *)
Definition dispatchFailed (body : value) (e : string) : M Response :=
  type ← lift (get_field body "type");
  type ← lift (ToString type);
  console "error" ("Error processing request for type " +:+ type
                     +:+ ": " +:+ e);;
  mret (jsonError "Gateway processing failed" 500).

(** Lines 124-136: the switch on [route.type]. *)
Definition dispatch (route body : value) : M Response :=
  try_catch
    (type ← lift (get_field route "type");
     if strict_eq type (VStr "REST") then handleRest route body
     else if strict_eq type (VStr "ABLY") then handleAbly route body
     else
       type ← lift (get_field body "type");
       type ← lift (ToString type);
       mret (jsonError ("Unsupported service type: " +:+ type) 501))
    (dispatchFailed body).

(** Lines 101-136: what [handleApi] does with a validated envelope. *)
Definition routeAndDispatch (requestId : value) (key : string) (body : value)
  : M Response :=
  route ← resolveRoute key;
  if negb (truthy route) then
    mret (nack requestId "NO_ROUTE" ("No route found for " +:+ key))
  else
    body ← injectTableName route body;
    dispatch route body.

Definition handleApi (request : InboundRequest) : M Response :=
  match in_authorization request with
  | None => mret (nack (VStr "unknown") "UNAUTHORIZED"
                    "Missing or invalid Authorization header")
  | Some auth =>
      if negb (truthy (VStr auth)) || negb (startsWith auth "Bearer ") then
        mret (nack (VStr "unknown") "UNAUTHORIZED"
                "Missing or invalid Authorization header")
      else
        let token := item 1 (split " " auth) in
        secret ← env_get (VStr C_GATEWAY_TOKEN_NAME);
        if negb (strict_eq token secret) then
          mret (nack (VStr "unknown") "INVALID_TOKEN" "Token authentication failed")
        else
          match in_json request with
          | None => mret (nack (VStr "unknown") "INVALID_JSON" "Malformed JSON body")
          | Some body =>
              request_id ← lift (get_field body "request_id");
              let requestId := or_else request_id (VStr "unknown") in
              version ← lift (get_field body "version");
              let version := or_else version (VStr "v1") in
              service ← lift (get_field body "service");
              if negb (truthy service) then
                mret (nack requestId "INVALID_FIELD" "Missing field: service")
              else
                payload ← lift (get_field body "payload");
                if negb (truthy payload) then
                  mret (nack requestId "INVALID_FIELD" "Missing required field: payload")
                else
                  versionText ← lift (ToString version);
                  serviceText ← lift (ToString service);
                  let key := versionText +:+ "/" +:+ serviceText in
                  routeAndDispatch requestId key body
          end
  end.

(** ** The exported handler (index.js, lines 141-157) *)

(** The 405 and 404 answers are built without headers of the gateway's
    own. *)
Definition default_fetch (request : InboundRequest) (env : Env) : M Response :=
  set_globals env;;
  if negb (String.eqb (in_method request) "POST") then
    mret {| resp_status := 405; resp_headers := [];
            resp_body := Some "Method Not Allowed" |}
  else if String.eqb (in_pathname request) "/api" then handleApi request
  else
    mret {| resp_status := 404; resp_headers := []; resp_body := Some "Not Found" |}.

(** ** Names for what the theorems speak of *)

(** [obj.k] of a record. *)
Definition prop (props : list (string * value)) (k : string) : value :=
  default VUndef (lookup_prop k props).

(** The value of [routeToken] after lines 14-19 of [handleRest], and after
    the same lines 35-40 of [handleAbly], for a route record and the
    bindings of the environment. *)
Definition routeToken_of (route : list (string * value)) (vars : gmap string value)
  : Result value :=
  if truthy (prop route "token") then Ok (prop route "token")
  else if truthy (prop route "authKeyEnvName")
       then match ToString (prop route "authKeyEnvName") with
            | Ok name => Ok (env_lookup vars name)
            | Throw e => Throw e
            end
       else Ok (prop route "token").

(** What [JSON.parse(v)] returns, when it returns: the value of the text
    that [v] prints as. *)
Definition parsed (v : value) : option value :=
  match ToString v with
  | Ok text => JSON_parse text
  | Throw _ => None
  end.

(** A request that passes lines 72-80 of [handleApi] in state [s]: its
    Authorization header starts with "Bearer " and the token after it is
    strictly equal to the secret bound to DA_GATEWAY_TOKEN. *)
Definition authenticated (request : InboundRequest) (s : State) : Prop :=
  exists (auth : string) (vars : gmap string value),
    in_authorization request = Some auth
    /\ startsWith auth "Bearer " = true
    /\ G_ENV s = Some vars
    /\ strict_eq (item 1 (split " " auth))
         (default VUndef (vars !! C_GATEWAY_TOKEN_NAME)) = true.

(** The state after one more effect. *)
Definition after (s : State) (e : event) : State :=
  {| G_DB := G_DB s; G_ENV := G_ENV s; trace := trace s ++ [e] |}.

(** The outbound requests of a trace, in order. *)
Fixpoint requests (t : list event) : list Request :=
  match t with
  | [] => []
  | Fetch r :: t' => r :: requests t'
  | _ :: t' => requests t'
  end.

(** The database queries of a trace: the bound keys, in order. *)
Fixpoint queries (t : list event) : list string :=
  match t with
  | [] => []
  | Query _ key :: t' => key :: queries t'
  | _ :: t' => queries t'
  end.

(** The request with another Authorization header. *)
Definition with_auth (request : InboundRequest) (auth : string) : InboundRequest :=
  {| in_method := in_method request;
     in_pathname := in_pathname request;
     in_authorization := Some auth;
     in_json := in_json request |}.

(** The POST that [handleRest] builds (lines 14-28) for a route record,
    the bindings of the environment and a body, when every conversion on
    the way gives a string. *)
Definition restRequest (route : list (string * value)) (vars : gmap string value)
    (bodyJson : value) : Result Request :=
  match routeToken_of route vars with
  | Throw e => Throw e
  | Ok routeToken =>
      match (if truthy routeToken
             then match ToString routeToken with
                  | Ok bearer => Ok [("Authorization", "Bearer " +:+ bearer)]%string
                  | Throw e => Throw e
                  end
             else Ok []) with
      | Throw e => Throw e
      | Ok authorization =>
          match ToString (prop route "targetUrl") with
          | Throw e => Throw e
          | Ok url =>
              Ok {| req_url := url;
                    req_method := "POST";
                    req_headers :=
                      ("Content-Type", "application/json")%string :: authorization;
                    req_body := JSON_stringify bodyJson |}
          end
      end
  end.

(** The publish request that [handleAbly] builds (lines 35-57) for a route
    record, the bindings of the environment and a body record, when the
    channel name and the credential can be encoded. *)
Definition ablyRequest (route : list (string * value)) (vars : gmap string value)
    (bodyJson : list (string * value)) : Result Request :=
  match routeToken_of route vars with
  | Throw e => Throw e
  | Ok routeToken =>
      match ToString (prop route "channelName") with
      | Throw e => Throw e
      | Ok channelText =>
          match encodeURIComponent channelText with
          | Throw e => Throw e
          | Ok segment =>
              match ToString routeToken with
              | Throw e => Throw e
              | Ok credential =>
                  match btoa credential with
                  | Throw e => Throw e
                  | Ok basic =>
                      Ok {| req_url :=
                              ABLY_PUBLISH_BASE_URL +:+ "/" +:+ segment +:+ "/messages";
                            req_method := "POST";
                            req_headers :=
                              [("Authorization", "Basic " +:+ basic);
                               ("Content-Type", "application/json")]%string;
                            req_body :=
                              JSON_stringify
                                (VArr [VObj [("name",
                                              or_else (prop bodyJson "action")
                                                (VStr "gateway-event"));
                                             ("data", VObj bodyJson)]]) |}
                  end
              end
          end
      end
  end.

(** A computation that leaves the globals alone and adds at most [nq]
    database queries and [nf] outbound requests to the trace, whatever it
    returns or throws. *)
Definition frugal {A : Type} (nq nf : nat) (m : M A) : Prop :=
  forall s : State,
    G_DB (m s).2 = G_DB s
    /\ G_ENV (m s).2 = G_ENV s
    /\ exists log : list event,
         trace (m s).2 = trace s ++ log
         /\ (length (queries log) <= nq)%nat
         /\ (length (requests log) <= nf)%nat.

End Gateway.

(** ** A runtime, deployments and requests for the examples *)

(** Prints a double that is a whole number of magnitude at most 2^53 in
    decimal, as the engine does, and the zeros, infinities and NaN.  It
    is a stand-in for the examples, which use no other numbers: on every
    other double it answers NaN, which is not what the engine prints. *)
Definition stub_Number_toString (x : float) : string :=
  match Prim2SF x with
  | S754_zero _ => "0"
  | S754_infinity sign => if sign then "-Infinity" else "Infinity"
  | S754_nan => "NaN"
  | S754_finite sign m e =>
      let whole :=
        if 0 <=? e then Some (Z.pos m * 2 ^ e)
        else if Z.pos m mod 2 ^ (- e) =? 0 then Some (Z.pos m / 2 ^ (- e))
        else None in
      match whole with
      | Some n =>
          if n <=? 2 ^ 53
          then (if sign then "-" else "") +:+ NilZero.string_of_int (Z.to_int n)
          else "NaN"
      | None => "NaN"
      end
  end.

(** Three strings beyond ASCII, by their bytes: U+00E9, U+20AC, and the
    lone surrogate U+D800. *)
Definition e_acute : string :=
  String (ascii_of_nat 195) (String (ascii_of_nat 169) EmptyString).

Definition euro_sign : string :=
  String (ascii_of_nat 226)
    (String (ascii_of_nat 130) (String (ascii_of_nat 172) EmptyString)).

Definition lone_surrogate : string :=
  String (ascii_of_nat 237)
    (String (ascii_of_nat 160) (String (ascii_of_nat 128) EmptyString)).

(** A runtime that prints and neither parses nor answers. *)
Definition printer : Runtime :=
  {| Number_toString := stub_Number_toString;
     JSON_parse := fun _ => None;
     network := fun _ => None |}.

(** A route kept in the store of the examples. *)
Definition stored_route : value :=
  VObj [("type", VStr "REST"); ("targetUrl", VStr "https://stock.example.com");
        ("token", VStr "T9")].

(** Parses the text that [JSON.stringify] prints for [stored_route], and
    rejects every other text. *)
Definition stub_JSON_parse (text : string) : option value :=
  if bool_decide (@JSON_stringify printer stored_route = Some text)
  then Some stored_route else None.

(** Answers 200 "ok", except at a host that is down. *)
Definition stub_network (r : Request) : option Response :=
  if String.eqb (req_url r) "https://down.example.com" then None
  else Some {| resp_status := 200; resp_headers := []; resp_body := Some "ok" |}.

Definition stub_runtime : Runtime :=
  {| Number_toString := stub_Number_toString;
     JSON_parse := stub_JSON_parse;
     network := stub_network |}.

(** The deployment that uses the template as it is. *)
Definition template_router : Router := {| DA_SERVICE_MAP := DA_SERVICE_MAP_template |}.

(** A deployment with a route that names a table, one that sets
    [table_name] to the empty string, and one of an unknown type. *)
Definition orders_route : list (string * value) :=
  [("type", VStr "REST"); ("targetUrl", VStr "https://orders.example.com");
   ("token", VStr "T1"); ("authKeyEnvName", VStr "REST_API_BEARER_TOKEN");
   ("table_name", VStr "orders")].

Definition blank_table_route : list (string * value) :=
  [("type", VStr "REST"); ("targetUrl", VStr "https://orders.example.com");
   ("table_name", VStr "")].

Definition orders_router : Router :=
  {| DA_SERVICE_MAP :=
       <[ "v1/orders" := VObj orders_route ]>
       (<[ "v1/blank" := VObj blank_table_route ]>
       (<[ "v1/queue" := VObj [("type", VStr "KAFKA")] ]> ∅)) |}.

(** The envelope of the bus examples: its payload carries an [action], the
    envelope itself does not. *)
Definition bus_envelope : list (string * value) :=
  [("version", VStr "v88"); ("service", VStr "demoably");
   ("payload", VObj [("action", VStr "created"); ("id", VStr "7")])].

(** The two routes of the template. *)
Definition demoably_route : list (string * value) :=
  [("type", VStr "ABLY"); ("authKeyEnvName", VStr "ABLY_API_KEY");
   ("channelName", VStr "system_bus_v1")].

Definition demorest_route : list (string * value) :=
  [("type", VStr "REST"); ("targetUrl", VStr "https://v1-users-api.example.com");
   ("authKeyEnvName", VStr "REST_API_BEARER_TOKEN")].

(** An ABLY route with neither [token] nor [authKeyEnvName]. *)
Definition open_bus_route : list (string * value) :=
  [("type", VStr "ABLY"); ("channelName", VStr "system_bus_v1")].

Definition sample_vars : gmap string value :=
  <[ "DA_GATEWAY_TOKEN" := VStr "s3cret" ]>
  (<[ "REST_API_BEARER_TOKEN" := VStr "R1" ]>
  (<[ "ABLY_API_KEY" := VStr "key:secret!" ]> ∅)).

Definition sample_env (db : option D1) : Env :=
  {| env_DB := db; env_vars := sample_vars |}.

(** The globals when the module is loaded (lines 223-225). *)
Definition initial : State := {| G_DB := None; G_ENV := None; trace := [] |}.

(** The state of a request under [sample_env]. *)
Definition serving (db : option D1) : State :=
  {| G_DB := db; G_ENV := Some sample_vars; trace := [] |}.

Definition api_request (auth : string) (body : value) : InboundRequest :=
  {| in_method := "POST"; in_pathname := "/api";
     in_authorization := Some auth; in_json := Some body |}.

(** Stores: one that rejects every query, one with no row, one whose row
    does not parse, and one that holds [stored_route]. *)
Definition rejecting_db : D1 := fun _ _ => D1Rejects.
Definition empty_db : D1 := fun _ _ => D1Resolves (Some []).
Definition garbled_db : D1 := fun _ _ => D1Resolves (Some [VObj [("t1", VStr "{oops")]]).
Definition stocked_db : D1 := fun _ key =>
  if String.eqb key "v1/stock"
  then D1Resolves
         (Some [VObj [("t1", VStr (default "" (@JSON_stringify printer stored_route)))]])
  else D1Resolves (Some []).

(** A runtime whose network is down, and one whose network answers
    every request with 429. *)
Definition offline_runtime : Runtime :=
  {| Number_toString := stub_Number_toString;
     JSON_parse := stub_JSON_parse;
     network := fun _ => None |}.

Definition busy_runtime : Runtime :=
  {| Number_toString := stub_Number_toString;
     JSON_parse := stub_JSON_parse;
     network := fun _ =>
       Some {| resp_status := 429; resp_headers := [];
               resp_body := Some "rate limited" |} |}.

Section GatewayFacts.

Context {runtime : Runtime} {router : Router}.

(** ** Running monadic code *)

Lemma bind_run {A B : Type} (m : M A) (f : A -> M B) (s : State) :
  (m ≫= f) s =
  match m s with
  | (Ok a, s') => f a s'
  | (Throw e, s') => (Throw e, s')
  end.
Proof. reflexivity. Qed.

Lemma ret_run {A : Type} (a : A) (s : State) : (mret a : M A) s = (Ok a, s).
Proof. reflexivity. Qed.

(** Steps through binds, returns and the primitive effects. *)
Ltac run :=
  repeat first
    [ rewrite bind_run
    | rewrite ret_run
    | progress unfold console, emit, lift, throw, after
    | progress cbv beta iota
    | progress cbn [G_DB G_ENV trace fst snd] ].

Lemma lift_bind_ok {A B : Type} (r : Result A) (a : A) (f : A -> M B) (s : State) :
  r = Ok a -> (lift r ≫= f) s = f a s.
Proof. intros ->. reflexivity. Qed.

Lemma lift_run {A : Type} (r : Result A) (s : State) : lift r s = (r, s).
Proof. reflexivity. Qed.

Lemma env_get_run (name : value) (s : State) (vars : gmap string value) :
  G_ENV s = Some vars ->
  env_get name s =
  (match ToString name with
   | Ok key => Ok (env_lookup vars key)
   | Throw e => Throw e
   end, s).
Proof.
  intros H. unfold env_get. rewrite bind_run. cbn [read_G_ENV]. rewrite H.
  rewrite bind_run, lift_run. destruct (ToString name); reflexivity.
Qed.

(** No object inherits a member named DA_GATEWAY_TOKEN: the secret is the
    own binding or undefined. *)
Lemma env_lookup_secret (vars : gmap string value) :
  env_lookup vars C_GATEWAY_TOKEN_NAME = default VUndef (vars !! C_GATEWAY_TOKEN_NAME).
Proof. unfold env_lookup. destruct (vars !! C_GATEWAY_TOKEN_NAME); reflexivity. Qed.

(** ** The bearer token of a header that passes the prefix check *)

Lemma split_cons (sep : ascii) (s : string) :
  exists piece pieces, split sep s = piece :: pieces.
Proof.
  induction s as [|c s IH]; cbn.
  - eauto.
  - destruct (Ascii.eqb c sep); [eauto|].
    destruct IH as (p & ps & ->). eauto.
Qed.

Lemma prefix_append (p s : string) :
  String.prefix p s = true -> exists rest, s = (p +:+ rest)%string.
Proof.
  revert s. induction p as [|a p IH]; intros s H.
  - exists s. reflexivity.
  - destruct s as [|b s]; [discriminate H|].
    change (String.prefix (String a p) (String b s))
      with (if ascii_dec a b then String.prefix p s else false) in H.
    destruct (ascii_dec a b) as [<-|]; [|discriminate H].
    destruct (IH s H) as (rest & ->). exists rest. reflexivity.
Qed.

Lemma startsWith_Bearer (auth : string) :
  startsWith auth "Bearer " = true ->
  exists rest, auth = ("Bearer " +:+ rest)%string.
Proof. apply prefix_append. Qed.

Lemma token_is_string (auth : string) :
  startsWith auth "Bearer " = true ->
  exists t, item 1 (split " " auth) = VStr t.
Proof.
  intros H. destruct (startsWith_Bearer auth H) as (rest & ->).
  destruct (split_cons " " rest) as (p & ps & E).
  simpl. change ("" +:+ rest)%string with rest. rewrite E. cbn. eauto.
Qed.

Lemma startsWith_truthy (auth : string) :
  startsWith auth "Bearer " = true -> truthy (VStr auth) = true.
Proof.
  intros H. destruct (startsWith_Bearer auth H) as (rest & ->). reflexivity.
Qed.

(** The token check of [handleApi] (lines 72-80), for a header that passes
    the prefix check. *)
Lemma handleApi_token_check (request : InboundRequest) (auth : string)
    (vars : gmap string value) (s : State) :
  in_authorization request = Some auth ->
  startsWith auth "Bearer " = true ->
  G_ENV s = Some vars ->
  strict_eq (item 1 (split " " auth))
    (default VUndef (vars !! C_GATEWAY_TOKEN_NAME)) = false ->
  handleApi request s =
  (Ok (nack (VStr "unknown") "INVALID_TOKEN" "Token authentication failed"), s).
Proof.
  intros Hauth Hpre Henv Hne. unfold handleApi. rewrite Hauth.
  rewrite (startsWith_truthy auth Hpre), Hpre. cbn [negb orb].
  rewrite bind_run, (env_get_run _ _ vars Henv).
  change (ToString (VStr C_GATEWAY_TOKEN_NAME)) with (Ok C_GATEWAY_TOKEN_NAME).
  cbv beta iota. rewrite env_lookup_secret, Hne. reflexivity.
Qed.

(** The same check seen from the exported handler: a POST to /api under
    an environment without the secret is rejected whatever the globals
    held before. *)
Lemma default_fetch_without_secret (request : InboundRequest) (auth : string)
    (env : Env) (s : State) :
  in_method request = "POST" ->
  in_pathname request = "/api" ->
  in_authorization request = Some auth ->
  startsWith auth "Bearer " = true ->
  env_vars env !! C_GATEWAY_TOKEN_NAME = None ->
  default_fetch request env s =
  (Ok (nack (VStr "unknown") "INVALID_TOKEN" "Token authentication failed"),
   {| G_DB := env_DB env; G_ENV := Some (env_vars env); trace := trace s |}).
Proof.
  intros Hmethod Hpath Hauth Hpre Hnone. unfold default_fetch.
  rewrite bind_run. cbn [set_globals]. rewrite Hmethod, Hpath. cbn [negb String.eqb].
  apply (handleApi_token_check request auth (env_vars env)); try assumption.
  - reflexivity.
  - destruct (token_is_string auth Hpre) as (t & ->). rewrite Hnone. reflexivity.
Qed.

(** C10. When the environment has no binding named DA_GATEWAY_TOKEN, every
    request whose Authorization header starts with "Bearer " gets the
    INVALID_TOKEN nack with status 400: the token taken from the header is
    a string, the secret is undefined, and the two are never strictly
    equal.  The state comes back as it was, so no database query, no
    outbound call and no log line happened. *)
Theorem handleApi_fails_closed_without_secret (request : InboundRequest)
    (auth : string) (vars : gmap string value) (s : State) :
  in_authorization request = Some auth ->
  startsWith auth "Bearer " = true ->
  G_ENV s = Some vars ->
  vars !! C_GATEWAY_TOKEN_NAME = None ->
  (exists t, item 1 (split " " auth) = VStr t)
  /\ handleApi request s =
     (Ok (nack (VStr "unknown") "INVALID_TOKEN" "Token authentication failed"), s)
  /\ resp_status (nack (VStr "unknown") "INVALID_TOKEN" "Token authentication failed")
     = 400.
Proof.
  intros Hauth Hpre Henv Hnone.
  destruct (token_is_string auth Hpre) as (t & Ht).
  split; [eauto|]. split; [|reflexivity].
  apply (handleApi_token_check request auth vars s Hauth Hpre Henv).
  rewrite Ht, Hnone. reflexivity.
Qed.

(** ** The two protocol handlers, run *)

Lemma fetch_run (r : Request) (s : State) :
  fetch r s =
  (match network r with Some res => Ok res | None => Throw "fetch failed" end,
   after s (Fetch r)).
Proof. unfold fetch. rewrite bind_run. cbn. destruct (network r); reflexivity. Qed.

Lemma truthy_not_empty (v : value) :
  truthy v = true -> strict_eq v (VStr "") = false.
Proof. destruct v as [| | | |t| |]; try reflexivity. cbn. destruct t; [discriminate|reflexivity]. Qed.

(** Lines 14-19 and 35-40 leave [routeToken_of] in [routeToken], or throw
    as it does. *)
Lemma routeToken_run {B : Type} (route : list (string * value))
    (vars : gmap string value) (k : value -> M B) (s : State) :
  G_ENV s = Some vars ->
  ((if negb (truthy (prop route "token")) || strict_eq (prop route "token") (VStr "")
    then
      name ← lift (get_field (VObj route) "authKeyEnvName");
      if truthy name then
        name ← lift (get_field (VObj route) "authKeyEnvName");
        env_get name
      else mret (prop route "token")
    else mret (prop route "token")) ≫= k) s
  = (lift (routeToken_of route vars) ≫= k) s.
Proof.
  intros Henv. unfold routeToken_of. rewrite !bind_run.
  destruct (truthy (prop route "token")) eqn:Htok.
  - rewrite (truthy_not_empty _ Htok). reflexivity.
  - cbn [negb orb]. rewrite bind_run. cbn [lift get_field]. fold (prop route "authKeyEnvName").
    destruct (truthy (prop route "authKeyEnvName")) eqn:Hname.
    + rewrite bind_run. cbn [lift get_field]. fold (prop route "authKeyEnvName").
      rewrite (env_get_run _ _ vars Henv).
      destruct (ToString (prop route "authKeyEnvName")); reflexivity.
    + reflexivity.
Qed.

(** [handleRest] builds [restRequest] and fetches it, or throws where a
    conversion throws, before any effect. *)
Lemma handleRest_run (route : list (string * value)) (bodyJson : value)
    (vars : gmap string value) (s : State) :
  G_ENV s = Some vars ->
  handleRest (VObj route) bodyJson s =
  match restRequest route vars bodyJson with
  | Ok r => fetch r s
  | Throw e => (Throw e, s)
  end.
Proof.
  intros Henv. unfold handleRest, restRequest.
  rewrite bind_run. cbn [lift get_field]. fold (prop route "token").
  rewrite (routeToken_run route vars _ s Henv).
  rewrite bind_run, lift_run.
  destruct (routeToken_of route vars) as [routeToken|e]; [|reflexivity].
  rewrite bind_run.
  destruct (truthy routeToken).
  - rewrite bind_run, lift_run.
    destruct (ToString routeToken) as [bearer|e]; [|reflexivity].
    rewrite ret_run, bind_run. cbn [lift get_field]. fold (prop route "targetUrl").
    rewrite bind_run, lift_run.
    destruct (ToString (prop route "targetUrl")) as [url|e]; [|reflexivity].
    rewrite bind_run. cbn [app].
    destruct (fetch _ s) as [[res|e] s']; reflexivity.
  - rewrite ret_run, bind_run. cbn [lift get_field]. fold (prop route "targetUrl").
    rewrite bind_run, lift_run.
    destruct (ToString (prop route "targetUrl")) as [url|e]; [|reflexivity].
    rewrite bind_run. cbn [app].
    destruct (fetch _ s) as [[res|e] s']; reflexivity.
Qed.

(** For a name that no object inherits, [env[name]] is the own binding or
    undefined. *)
Lemma env_lookup_own (vars : gmap string value) (name : string) :
  inherited name = VUndef ->
  env_lookup vars name = default VUndef (vars !! name).
Proof. intros H. unfold env_lookup. destruct (vars !! name); [reflexivity|exact H]. Qed.

(** X16. REST dispatch, for a target that prints as [url]: a truthy (for a
    string: non-empty) [route.token] is the credential whatever
    [authKeyEnvName] and the environment hold; with an empty or absent
    token the credential is what [G_ENV[route.authKeyEnvName]] gives, an
    own binding of the environment or a member that every object
    inherits; when the token is falsy and either [authKeyEnvName] is
    falsy or that lookup gives a falsy value, the POST carries the
    Content-Type header alone.  Whenever the handler calls [fetch] it is
    with the one request [restRequest], whose first header is
    Content-Type: application/json; when a conversion throws, the
    handler throws the same before any effect. *)
Theorem handleRest_credential (route : list (string * value)) (bodyJson : value)
    (vars : gmap string value) (s : State) (url : string) :
  G_ENV s = Some vars ->
  ToString (prop route "targetUrl") = Ok url ->
  let post headers :=
    handleRest (VObj route) bodyJson s =
    fetch {| req_url := url;
             req_method := "POST";
             req_headers := headers;
             req_body := JSON_stringify bodyJson |} s in
  (forall credential : string,
     truthy (prop route "token") = true ->
     ToString (prop route "token") = Ok credential ->
     post [("Content-Type", "application/json");
           ("Authorization", "Bearer " +:+ credential)]%string)
  /\ (forall (name : string) (secret : value) (credential : string),
        truthy (prop route "token") = false ->
        truthy (prop route "authKeyEnvName") = true ->
        ToString (prop route "authKeyEnvName") = Ok name ->
        env_lookup vars name = secret ->
        truthy secret = true ->
        ToString secret = Ok credential ->
        post [("Content-Type", "application/json");
              ("Authorization", "Bearer " +:+ credential)]%string)
  /\ (truthy (prop route "token") = false ->
      truthy (prop route "authKeyEnvName") = false
      \/ (exists name : string,
            ToString (prop route "authKeyEnvName") = Ok name
            /\ truthy (env_lookup vars name) = false) ->
      post [("Content-Type", "application/json")]%string)
  /\ match restRequest route vars bodyJson with
     | Ok r =>
         handleRest (VObj route) bodyJson s = fetch r s
         /\ exists others,
              req_headers r = ("Content-Type", "application/json")%string :: others
     | Throw e => handleRest (VObj route) bodyJson s = (Throw e, s)
     end.
Proof.
  intros Henv Hurl post. subst post. cbv beta.
  rewrite (handleRest_run route bodyJson vars s Henv).
  unfold restRequest, routeToken_of. rewrite Hurl. split; [|split; [|split]].
  - intros credential Htok Hprint. rewrite Htok, Htok, Hprint. reflexivity.
  - intros name secret credential Htok Hname Hkey Hsecret Htruthy Hprint.
    rewrite Htok, Hname, Hkey, Hsecret, Htruthy, Hprint. reflexivity.
  - intros Htok [Hname|(name & Hkey & Hsecret)]; rewrite Htok.
    + rewrite Hname, Htok. reflexivity.
    + destruct (truthy (prop route "authKeyEnvName")).
      * rewrite Hkey, Hsecret. reflexivity.
      * rewrite Htok. reflexivity.
  - destruct (if truthy (prop route "token") then _ else _) as [routeToken|e];
      [|reflexivity].
    destruct (if truthy routeToken then _ else _) as [authorization|e];
      [|reflexivity].
    split; [reflexivity|]. eexists. reflexivity.
Qed.

Lemma requests_app (t u : list event) : requests (t ++ u) = requests t ++ requests u.
Proof.
  induction t as [|e t IH]; [reflexivity|].
  destruct e; cbn; rewrite IH; reflexivity.
Qed.

Lemma queries_app (t u : list event) : queries (t ++ u) = queries t ++ queries u.
Proof.
  induction t as [|e t IH]; [reflexivity|].
  destruct e; cbn; rewrite IH; reflexivity.
Qed.

(** [handleAbly] builds [ablyRequest], fetches it and answers, or throws
    where a conversion throws, before any effect. *)
Lemma handleAbly_run (route bodyJson : list (string * value))
    (vars : gmap string value) (s : State) :
  G_ENV s = Some vars ->
  handleAbly (VObj route) (VObj bodyJson) s =
  match ablyRequest route vars bodyJson with
  | Ok r =>
      (publishResponse ← fetch r;
       if resp_ok publishResponse then
         channelText ← lift (ToString (prop route "channelName"));
         mret (jsonSuccess
                 [("status", VStr "Accepted");
                  ("message", VStr ("Event published successfully to Ably channel: "
                                      +:+ channelText))])
       else
         mret (jsonError ("Failed to publish event to Ably: "
                            +:+ resp_text publishResponse) 502)) s
  | Throw e => (Throw e, s)
  end.
Proof.
  intros Henv. unfold handleAbly, ablyRequest.
  rewrite bind_run. cbn [lift get_field]. fold (prop route "token").
  rewrite (routeToken_run route vars _ s Henv).
  rewrite bind_run, lift_run.
  destruct (routeToken_of route vars) as [routeToken|e]; [|reflexivity].
  rewrite bind_run. cbn [lift get_field]. fold (prop route "channelName").
  rewrite bind_run, lift_run.
  destruct (ToString (prop route "channelName")) as [channelText|e]; [|reflexivity].
  rewrite bind_run, lift_run.
  destruct (encodeURIComponent channelText) as [segment|e]; [|reflexivity].
  rewrite bind_run. cbn [lift get_field]. fold (prop bodyJson "action").
  rewrite bind_run, lift_run.
  destruct (ToString routeToken) as [credential|e]; [|reflexivity].
  rewrite bind_run, lift_run.
  destruct (btoa credential) as [basic|e]; reflexivity.
Qed.

(** A publish request is built only for a channel name that prints. *)
Lemma ablyRequest_channel (route bodyJson : list (string * value))
    (vars : gmap string value) (r : Request) :
  ablyRequest route vars bodyJson = Ok r ->
  exists channelText, ToString (prop route "channelName") = Ok channelText.
Proof.
  unfold ablyRequest. intros H.
  destruct (routeToken_of route vars); [|discriminate H].
  destruct (ToString (prop route "channelName")); [eauto|discriminate H].
Qed.

(** The switch takes the ABLY case for a route record whose [type] is
    the string ABLY: the publisher runs on the envelope itself, and a
    rejected [fetch] ends in the [catch]. *)
Lemma dispatch_ABLY (route envelope : list (string * value)) (s : State) :
  prop route "type" = VStr "ABLY" ->
  dispatch (VObj route) (VObj envelope) s =
  try_catch (handleAbly (VObj route) (VObj envelope))
    (dispatchFailed (VObj envelope)) s.
Proof.
  intros Htype. unfold dispatch, try_catch.
  rewrite bind_run. cbn [lift get_field]. fold (prop route "type").
  rewrite Htype. reflexivity.
Qed.

(** The [catch] of the switch logs and answers 500 when the envelope's
    [type] prints; when it does not, the template literal of line 134
    throws out of the [catch]. *)
Lemma dispatchFailed_run (envelope : list (string * value)) (e : string) (s : State) :
  dispatchFailed (VObj envelope) e s =
  match ToString (prop envelope "type") with
  | Ok text =>
      (Ok (jsonError "Gateway processing failed" 500),
       after s (Console "error"
                  ("Error processing request for type " +:+ text +:+ ": " +:+ e)))
  | Throw e' => (Throw e', s)
  end.
Proof.
  unfold dispatchFailed. rewrite bind_run. cbn [lift get_field].
  fold (prop envelope "type"). rewrite bind_run, lift_run.
  destruct (ToString (prop envelope "type")); reflexivity.
Qed.

(** The [catch] of the switch calls nothing. *)
Lemma dispatchFailed_requests (body : value) (e : string) (s : State) :
  requests (trace (dispatchFailed body e s).2) = requests (trace s).
Proof.
  unfold dispatchFailed. rewrite bind_run, lift_run.
  destruct (get_field body "type") as [type|e']; [|reflexivity].
  rewrite bind_run, lift_run.
  destruct (ToString type) as [text|e']; [|reflexivity].
  run. cbn. rewrite requests_app. cbn. apply app_nil_r.
Qed.

(** C1, as the code has it.  For a route record of type ABLY whose
    channel name and credential can be encoded (so that the publish
    request [ablyRequest] is built), dispatch makes exactly one outbound
    request, and its body is the JSON text of the one-element array
    [[{name: e, data: b}]] in which [b] is the whole request envelope
    handed to dispatch (not its payload field) and [e] is the envelope's
    own top-level [action] when that is truthy, else the string
    gateway-event.  When the request cannot be built, nothing is sent. *)
Theorem dispatch_ABLY_publishes_envelope (route envelope : list (string * value))
    (vars : gmap string value) (s : State) :
  G_ENV s = Some vars ->
  prop route "type" = VStr "ABLY" ->
  match ablyRequest route vars envelope with
  | Ok r =>
      requests (trace (dispatch (VObj route) (VObj envelope) s).2)
      = requests (trace s) ++ [r]
      /\ req_body r =
         JSON_stringify
           (VArr [VObj [("name", if truthy (prop envelope "action")
                                 then prop envelope "action"
                                 else VStr "gateway-event");
                        ("data", VObj envelope)]])
  | Throw _ =>
      requests (trace (dispatch (VObj route) (VObj envelope) s).2)
      = requests (trace s)
  end.
Proof.
  intros Henv Htype.
  rewrite (dispatch_ABLY route envelope s Htype). unfold try_catch.
  rewrite (handleAbly_run route envelope vars s Henv).
  destruct (ablyRequest route vars envelope) as [r|e] eqn:Hbuilt.
  - split.
    + destruct (ablyRequest_channel _ _ _ _ Hbuilt) as (channelText & Hchannel).
      rewrite bind_run, fetch_run.
      destruct (network r) as [res|].
      * destruct (resp_ok res); [rewrite bind_run, lift_run, Hchannel|];
          cbn; rewrite requests_app; reflexivity.
      * rewrite dispatchFailed_requests. cbn. rewrite requests_app. reflexivity.
    + unfold ablyRequest in Hbuilt.
      destruct (routeToken_of route vars) as [routeToken|]; [|discriminate Hbuilt].
      destruct (ToString (prop route "channelName")); [|discriminate Hbuilt].
      destruct (encodeURIComponent _); [|discriminate Hbuilt].
      destruct (ToString routeToken); [|discriminate Hbuilt].
      destruct (btoa _); [|discriminate Hbuilt].
      injection Hbuilt as <-. reflexivity.
  - apply dispatchFailed_requests.
Qed.

(** X17. When the [type] of the resolved route is strictly equal to
    neither REST nor ABLY and the [type] field of the request envelope
    prints as [text], dispatch answers at once with status 501 and the
    message "Unsupported service type: " followed by [text]; the route's
    own type does not appear in the answer.  The state is untouched:
    nothing was sent or logged. *)
Theorem dispatch_unsupported_type (route envelope : value) (routeType bodyType : value)
    (text : string) (s : State) :
  get_field route "type" = Ok routeType ->
  strict_eq routeType (VStr "REST") = false ->
  strict_eq routeType (VStr "ABLY") = false ->
  get_field envelope "type" = Ok bodyType ->
  ToString bodyType = Ok text ->
  dispatch route envelope s =
  (Ok (jsonError ("Unsupported service type: " +:+ text) 501), s)
  /\ resp_status (jsonError ("Unsupported service type: " +:+ text) 501) = 501.
Proof.
  intros Hroute Hrest Hably Hbody Hprint. split; [|reflexivity].
  unfold dispatch, try_catch.
  rewrite (lift_bind_ok _ routeType _ s Hroute), Hrest, Hably.
  rewrite (lift_bind_ok _ bodyType _ s Hbody).
  rewrite (lift_bind_ok _ text _ s Hprint). reflexivity.
Qed.

(** X15. The REST case of the switch: when the credential and the target
    print (so that the POST [restRequest] is built), exactly that one
    request is made, whether or not the network answers; it is a POST to
    [route.targetUrl] whose body is the JSON text of the envelope that
    dispatch was given.  When the POST cannot be built, nothing is
    sent. *)
Lemma dispatch_REST_forwards (route : list (string * value)) (envelope : value)
    (vars : gmap string value) (s : State) :
  G_ENV s = Some vars ->
  prop route "type" = VStr "REST" ->
  match restRequest route vars envelope with
  | Ok r =>
      requests (trace (dispatch (VObj route) envelope s).2) = requests (trace s) ++ [r]
      /\ req_method r = "POST"
      /\ ToString (prop route "targetUrl") = Ok (req_url r)
      /\ req_body r = JSON_stringify envelope
  | Throw _ =>
      requests (trace (dispatch (VObj route) envelope s).2) = requests (trace s)
  end.
Proof.
  intros Henv Htype.
  assert (Hrun : dispatch (VObj route) envelope s =
                 try_catch (handleRest (VObj route) envelope) (dispatchFailed envelope) s).
  { unfold dispatch, try_catch.
    rewrite bind_run. cbn [lift get_field]. fold (prop route "type").
    rewrite Htype. reflexivity. }
  rewrite Hrun. unfold try_catch.
  rewrite (handleRest_run route envelope vars s Henv).
  destruct (restRequest route vars envelope) as [r|e] eqn:Hbuilt.
  - split.
    + rewrite fetch_run. destruct (network r) as [res|].
      * cbn. rewrite requests_app. reflexivity.
      * rewrite dispatchFailed_requests. cbn. rewrite requests_app. reflexivity.
    + unfold restRequest in Hbuilt.
      destruct (routeToken_of route vars) as [routeToken|]; [|discriminate Hbuilt].
      destruct (if truthy routeToken then _ else _); [|discriminate Hbuilt].
      destruct (ToString (prop route "targetUrl")); [|discriminate Hbuilt].
      injection Hbuilt as <-. repeat split.
  - apply dispatchFailed_requests.
Qed.

(** ** The route store *)

(** [findRouteFromDB], case by case. *)
Lemma findRouteFromDB_run (key : string) (s : State) :
  findRouteFromDB key s =
  match G_DB s with
  | None => (Ok VNull, s)
  | Some db =>
      let sql := "SELECT t1 FROM darouter WHERE c1 = ? LIMIT 1" in
      let queried := after s (Query sql key) in
      let failed :=
        after queried (Console "error" ("DB lookup failed for route: " +:+ key)) in
      match db sql key with
      | D1Rejects => (Ok VNull, failed)
      | D1Resolves None | D1Resolves (Some []) => (Ok VNull, queried)
      | D1Resolves (Some (row :: _)) =>
          match get_field row "t1" with
          | Throw _ => (Ok VNull, failed)
          | Ok t1 =>
              if truthy t1 then
                match parsed t1 with
                | Some config => (Ok config, queried)
                | None =>
                    (Ok VNull,
                     after queried
                       (Console "error" ("Invalid JSON in DB for route " +:+ key +:+ ":")))
                end
              else (Ok VNull, queried)
          end
      end
  end.
Proof.
  unfold findRouteFromDB. rewrite bind_run. cbn [read_G_DB].
  destruct (G_DB s) as [db|] eqn:Hdb; [|reflexivity].
  cbv zeta. unfold try_catch, d1_all. rewrite !bind_run. cbn [emit].
  change ("SELECT t1 FROM " +:+ C_RouteTableName +:+ " WHERE c1 = ? LIMIT 1")%string
    with "SELECT t1 FROM darouter WHERE c1 = ? LIMIT 1"%string.
  destruct (db _ key) as [|[[|row rows]|]]; run; try reflexivity.
  destruct (get_field row "t1") as [t1|e]; run; [|reflexivity].
  destruct (truthy t1); cbn [negb]; [|reflexivity].
  unfold JSON_parse', parsed. run.
  destruct (ToString t1) as [text|e]; [|reflexivity].
  destruct (JSON_parse text) as [config|]; reflexivity.
Qed.

(** C8. [findRouteFromDB] never throws.  Without a database handle it
    returns null at once and the state is untouched (no query).  With a
    handle it makes the one query for the key and returns a value: null
    when the query rejects, when there is no [results] list or no row,
    when the row cannot be read or its [t1] is falsy, and when [t1] does
    not print or parse; otherwise the parsed configuration.  Failures
    only add console lines to the trace. *)
Theorem findRouteFromDB_never_raises (key : string) (s : State) :
  match G_DB s with
  | None => findRouteFromDB key s = (Ok VNull, s)
  | Some db =>
      let sql := "SELECT t1 FROM darouter WHERE c1 = ? LIMIT 1" in
      exists (v : value) (log : list event),
        findRouteFromDB key s =
        (Ok v, {| G_DB := G_DB s; G_ENV := G_ENV s;
                  trace := trace s ++ Query sql key :: log |})
        /\ requests log = [] /\ queries log = []
        /\ v = match db sql key with
               | D1Rejects => VNull
               | D1Resolves None => VNull
               | D1Resolves (Some []) => VNull
               | D1Resolves (Some (row :: _)) =>
                   match get_field row "t1" with
                   | Throw _ => VNull
                   | Ok t1 =>
                       if truthy t1 then default VNull (parsed t1)
                       else VNull
                   end
               end
  end.
Proof.
  rewrite findRouteFromDB_run.
  destruct (G_DB s) as [db|] eqn:Hdb; [|reflexivity].
  cbv zeta. unfold after. cbn [G_DB G_ENV trace].
  destruct (db _ key) as [|[[|row rows]|]].
  - eexists _, [_]. rewrite Hdb, <- app_assoc. repeat split.
  - eexists _, []. rewrite Hdb. repeat split.
  - destruct (get_field row "t1") as [t1|e].
    + destruct (truthy t1).
      * destruct (parsed t1) as [config|].
        -- eexists _, []. rewrite Hdb. repeat split.
        -- eexists _, [_]. rewrite Hdb, <- app_assoc. repeat split.
      * eexists _, []. rewrite Hdb. repeat split.
    + eexists _, [_]. rewrite Hdb, <- app_assoc. repeat split.
  - eexists _, []. rewrite Hdb. repeat split.
Qed.

(** The lookup reads the handle and nothing else of the state, returns a
    value, and leaves the globals as they were. *)
Lemma findRouteFromDB_frame (key : string) (s : State) :
  (exists v, (findRouteFromDB key s).1 = Ok v)
  /\ G_DB (findRouteFromDB key s).2 = G_DB s
  /\ G_ENV (findRouteFromDB key s).2 = G_ENV s
  /\ requests (trace (findRouteFromDB key s).2) = requests (trace s).
Proof.
  rewrite findRouteFromDB_run.
  destruct (G_DB s) as [db|] eqn:Hdb; [|cbn; eauto].
  cbv zeta.
  destruct (db _ key) as [|[[|row rows]|]];
    [| |destruct (get_field row "t1") as [t1|e];
        [destruct (truthy t1); [destruct (parsed t1)|]|]|];
    cbn; rewrite ?requests_app, ?app_nil_r; eauto.
Qed.

Lemma findRouteFromDB_same_handle (key : string) (s s' : State) :
  G_DB s' = G_DB s ->
  (findRouteFromDB key s').1 = (findRouteFromDB key s).1.
Proof.
  intros H. rewrite !findRouteFromDB_run, H.
  destruct (G_DB s) as [db|]; [|reflexivity].
  cbv zeta.
  destruct (db _ key) as [|[[|row rows]|]]; try reflexivity.
  destruct (get_field row "t1") as [t1|e]; [|reflexivity].
  destruct (truthy t1); [|reflexivity].
  destruct (parsed t1); reflexivity.
Qed.

(** ** Route resolution *)

Lemma resolveRoute_run (key : string) (s : State) :
  resolveRoute key s =
  if truthy (default VUndef (DA_SERVICE_MAP !! key))
  then (Ok (default VUndef (DA_SERVICE_MAP !! key)), s)
  else findRouteFromDB key s.
Proof.
  unfold resolveRoute. destruct (truthy _); reflexivity.
Qed.

(** C9. Resolving a key, then resolving it again in the state the first
    resolution left, gives the same route both times (a falsy value both
    times when there is none), and never throws; the first resolution
    leaves the database handle and the environment as they were. *)
Theorem resolveRoute_idempotent (key : string) (s : State) :
  let first := resolveRoute key s in
  let second := resolveRoute key first.2 in
  (exists route, first.1 = Ok route /\ second.1 = Ok route)
  /\ G_DB first.2 = G_DB s
  /\ G_ENV first.2 = G_ENV s.
Proof.
  cbv zeta. rewrite !resolveRoute_run.
  destruct (truthy (default VUndef (DA_SERVICE_MAP !! key))).
  - cbn. eauto.
  - destruct (findRouteFromDB_frame key s) as ((v & Hv) & Hdb & Henv & _).
    split; [|split; assumption].
    exists v. split; [assumption|].
    rewrite (findRouteFromDB_same_handle key s _ Hdb). assumption.
Qed.

Lemma routeAndDispatch_no_route (requestId : value) (key : string) (body v : value)
    (s s' : State) :
  resolveRoute key s = (Ok v, s') ->
  truthy v = false ->
  routeAndDispatch requestId key body s =
  (Ok (nack requestId "NO_ROUTE" ("No route found for " +:+ key)), s').
Proof.
  intros Hres Hv. unfold routeAndDispatch. rewrite bind_run, Hres, Hv. reflexivity.
Qed.

Lemma routeAndDispatch_route (requestId : value) (key : string) (body route : value)
    (s s' : State) :
  resolveRoute key s = (Ok route, s') ->
  truthy route = true ->
  routeAndDispatch requestId key body s =
  (body' ← injectTableName route body; dispatch route body') s'.
Proof.
  intros Hres Hv. unfold routeAndDispatch. rewrite bind_run, Hres, Hv. reflexivity.
Qed.

(** C5. The static table is looked up first, by the key as a string.  A
    key that the table maps to a route is resolved to that route with the
    state untouched, so without any query and whatever the database
    handle is (missing, rejecting, or holding another route for the key).
    A key the table does not hold is resolved by [findRouteFromDB]; when
    that returns null (no handle, a rejected query, no row, an unparseable
    value) or any other falsy value, the answer is the NO_ROUTE nack,
    which names the key and not the cause. *)
Theorem static_table_first (key : string) (requestId body : value) (s : State) :
  (forall route, DA_SERVICE_MAP !! key = Some route -> truthy route = true ->
     resolveRoute key s = (Ok route, s)
     /\ queries (trace (resolveRoute key s).2) = queries (trace s))
  /\ (DA_SERVICE_MAP !! key = None ->
      resolveRoute key s = findRouteFromDB key s
      /\ forall v, (findRouteFromDB key s).1 = Ok v -> truthy v = false ->
           routeAndDispatch requestId key body s =
           (Ok (nack requestId "NO_ROUTE" ("No route found for " +:+ key)),
            (findRouteFromDB key s).2)).
Proof.
  split.
  - intros route Hhit Htruthy. rewrite resolveRoute_run, Hhit.
    change (default VUndef (Some route)) with route. rewrite Htruthy. split; reflexivity.
  - intros Hmiss.
    assert (Hres : resolveRoute key s = findRouteFromDB key s).
    { rewrite resolveRoute_run, Hmiss. reflexivity. }
    split; [exact Hres|].
    intros v Hv Hfalsy.
    apply (routeAndDispatch_no_route requestId key body v); [|exact Hfalsy].
    rewrite Hres. destruct (findRouteFromDB key s) as [r s']. cbn in Hv |- *.
    rewrite Hv. reflexivity.
Qed.

(** ** Records: reading after writing *)

Lemma lookup_assign_same (k : string) (v : value) (props : list (string * value)) :
  lookup_prop k (assign_prop k v props) = Some v.
Proof.
  induction props as [|[k' v'] props IH]; cbn.
  - rewrite String.eqb_refl. reflexivity.
  - destruct (String.eqb k k') eqn:E; cbn.
    + rewrite String.eqb_refl. reflexivity.
    + rewrite E. exact IH.
Qed.

Lemma lookup_assign_other (k k' : string) (v : value) (props : list (string * value)) :
  String.eqb k' k = false ->
  lookup_prop k' (assign_prop k v props) = lookup_prop k' props.
Proof.
  intros Hne. induction props as [|[k0 v0] props IH]; cbn.
  - rewrite Hne. reflexivity.
  - destruct (String.eqb k k0) eqn:E; cbn.
    + apply String.eqb_eq in E. subst k0. rewrite Hne. reflexivity.
    + destruct (String.eqb k' k0); [reflexivity|exact IH].
Qed.

Lemma lookup_remove_same (k : string) (props : list (string * value)) :
  lookup_prop k (remove_prop k props) = None.
Proof.
  induction props as [|[k' v'] props IH]; cbn; [reflexivity|].
  destruct (String.eqb k k') eqn:E; cbn; [exact IH|].
  rewrite E. exact IH.
Qed.


Lemma assign_prop_same (k : string) (v : value) (props : list (string * value)) :
  lookup_prop k props = Some v -> assign_prop k v props = props.
Proof.
  induction props as [|[k' v'] props IH]; cbn; [discriminate|].
  destruct (String.eqb k k') eqn:E.
  - intros [= ->]. apply String.eqb_eq in E. subst k'. reflexivity.
  - intros H. rewrite (IH H). reflexivity.
Qed.

Lemma remove_prop_absent (k : string) (props : list (string * value)) :
  lookup_prop k props = None -> remove_prop k props = props.
Proof.
  induction props as [|[k' v'] props IH]; [reflexivity|].
  cbn [lookup_prop remove_prop]. destruct (String.eqb k k'); [discriminate|].
  intros H. rewrite (IH H). reflexivity.
Qed.

Lemma prop_assign_same (k : string) (v : value) (props : list (string * value)) :
  prop (assign_prop k v props) k = v.
Proof. unfold prop. rewrite lookup_assign_same. reflexivity. Qed.

Lemma prop_lookup (props : list (string * value)) (k : string) (v : value) :
  prop props k = v -> truthy v = true \/ v <> VUndef -> lookup_prop k props = Some v.
Proof.
  unfold prop. destruct (lookup_prop k props) as [x|]; cbn.
  - intros ->. reflexivity.
  - intros <- [H|H]; [discriminate H|contradiction].
Qed.

(** ** The table_name step *)


(** ** Validation of the envelope *)

(** Lines 82-101 for an authenticated request whose body is a record. *)
Lemma handleApi_validation (request : InboundRequest) (envelope : list (string * value))
    (s : State) :
  authenticated request s ->
  in_json request = Some (VObj envelope) ->
  handleApi request s =
  let requestId := or_else (prop envelope "request_id") (VStr "unknown") in
  let version := or_else (prop envelope "version") (VStr "v1") in
  if negb (truthy (prop envelope "service")) then
    (Ok (nack requestId "INVALID_FIELD" "Missing field: service"), s)
  else if negb (truthy (prop envelope "payload")) then
    (Ok (nack requestId "INVALID_FIELD" "Missing required field: payload"), s)
  else
    (versionText ← lift (ToString version);
     serviceText ← lift (ToString (prop envelope "service"));
     routeAndDispatch requestId (versionText +:+ "/" +:+ serviceText)
       (VObj envelope)) s.
Proof.
  intros (auth & vars & Hauth & Hpre & Henv & Htoken) Hjson.
  unfold handleApi. rewrite Hauth, (startsWith_truthy auth Hpre), Hpre.
  cbn [negb orb].
  rewrite bind_run, (env_get_run _ _ vars Henv).
  change (ToString (VStr C_GATEWAY_TOKEN_NAME)) with (Ok C_GATEWAY_TOKEN_NAME).
  cbv beta iota. rewrite env_lookup_secret, Htoken, Hjson. cbn [negb].
  run. cbn [get_field]. fold (prop envelope "request_id").
  run. fold (prop envelope "version"). fold (prop envelope "service").
  destruct (truthy (prop envelope "service")); cbn [negb]; [|reflexivity].
  run. fold (prop envelope "payload").
  destruct (truthy (prop envelope "payload")); reflexivity.
Qed.

(** C2, as the code has it.  For an authenticated request whose JSON body
    is a record with a truthy [service]: the payload passes validation
    exactly when it is truthy (any record or array, the empty record
    included, a non-empty string, a non-zero number, true); an absent
    payload and the payloads null, false, 0 and the empty string all get
    the INVALID_FIELD nack with status 400, and nothing else happens.
    What follows validation is the route key of line 101: when [version]
    and [service] print, the request goes on to route resolution under
    the key made of the two; when one of them does not print, the
    template literal throws out of [handleApi], outside every [try]. *)
Theorem payload_must_be_truthy (request : InboundRequest)
    (envelope : list (string * value)) (s : State) :
  authenticated request s ->
  in_json request = Some (VObj envelope) ->
  truthy (prop envelope "service") = true ->
  handleApi request s =
  (if truthy (prop envelope "payload") then
     match ToString (or_else (prop envelope "version") (VStr "v1")) with
     | Ok version =>
         match ToString (prop envelope "service") with
         | Ok service =>
             routeAndDispatch (or_else (prop envelope "request_id") (VStr "unknown"))
               (version +:+ "/" +:+ service) (VObj envelope) s
         | Throw e => (Throw e, s)
         end
     | Throw e => (Throw e, s)
     end
   else
     (Ok (nack (or_else (prop envelope "request_id") (VStr "unknown"))
            "INVALID_FIELD" "Missing required field: payload"), s))
  /\ resp_status (nack (or_else (prop envelope "request_id") (VStr "unknown"))
                    "INVALID_FIELD" "Missing required field: payload") = 400
  /\ truthy (VObj []) = true
  /\ truthy VUndef = false /\ truthy VNull = false /\ truthy (VBool false) = false
  /\ truthy (VNum 0) = false /\ truthy (VStr "") = false.
Proof.
  intros Hauth Hjson Hservice.
  rewrite (handleApi_validation request envelope s Hauth Hjson).
  cbv zeta. rewrite Hservice. cbn [negb].
  destruct (truthy (prop envelope "payload")); cbn [negb];
    (split; [|repeat split]); [|reflexivity].
  rewrite bind_run, lift_run.
  destruct (ToString (or_else _ _)) as [version|e]; [|reflexivity].
  rewrite bind_run, lift_run.
  destruct (ToString (prop envelope "service")); reflexivity.
Qed.

(** ** The rejections before route resolution *)

Lemma prefix_append_true (p x : string) : String.prefix p (p +:+ x) = true.
Proof.
  induction p as [|a p IH]; [destruct x; reflexivity|].
  change (String.prefix (String a p) (String a p +:+ x))
    with (if ascii_dec a a then String.prefix p (p +:+ x) else false).
  destruct (ascii_dec a a) as [_|Hne]; [exact IH|contradiction].
Qed.

Lemma split_without_sep (sep : ascii) (t : string) :
  has_char sep t = false -> split sep t = [t].
Proof.
  induction t as [|c t IH]; [reflexivity|].
  cbn [has_char split]. intros H. apply orb_false_elim in H as [Hc Ht].
  rewrite Hc, (IH Ht). reflexivity.
Qed.

Lemma split_at_first_sep (sep : ascii) (t rest : string) :
  has_char sep t = false ->
  split sep (t +:+ String sep rest) = t :: split sep rest.
Proof.
  induction t as [|c t IH]; intros H.
  - change (EmptyString +:+ String sep rest)%string with (String sep rest).
    cbn [split]. rewrite Ascii.eqb_refl. reflexivity.
  - cbn [has_char] in H. apply orb_false_elim in H as [Hc Ht].
    change (String c t +:+ String sep rest)%string
      with (String c (t +:+ String sep rest)).
    cbn [split]. rewrite Hc, (IH Ht). reflexivity.
Qed.

Lemma split_pieces_without_sep (sep : ascii) (s : string) :
  Forall (fun piece => has_char sep piece = false) (split sep s).
Proof.
  induction s as [|c s IH]; cbn [split].
  - repeat constructor.
  - destruct (Ascii.eqb c sep) eqn:Hc.
    + constructor; [reflexivity|exact IH].
    + destruct (split sep s) as [|piece pieces].
      * repeat constructor. cbn [has_char]. rewrite Hc. reflexivity.
      * inversion IH as [|? ? Hpiece Hpieces]; subst.
        constructor; [|exact Hpieces].
        cbn [has_char]. rewrite Hc, Hpiece. reflexivity.
Qed.

(** The token of a header "Bearer t", with or without more text after a
    second space. *)
Lemma token_of_header (t junk : string) :
  has_char " " t = false ->
  item 1 (split " " ("Bearer " +:+ t)) = VStr t
  /\ item 1 (split " " ("Bearer " +:+ t +:+ " " +:+ junk)) = VStr t.
Proof.
  intros Ht. split.
  - change ("Bearer " +:+ t)%string with ("Bearer" +:+ String " " t)%string.
    rewrite split_at_first_sep by reflexivity.
    rewrite (split_without_sep " " t Ht). reflexivity.
  - change ("Bearer " +:+ t +:+ " " +:+ junk)%string
      with ("Bearer" +:+ String " " (t +:+ String " " junk))%string.
    rewrite split_at_first_sep by reflexivity.
    rewrite (split_at_first_sep " " t junk Ht). reflexivity.
Qed.

(** The token of a header never holds a space. *)
Lemma token_without_space (auth t : string) :
  item 1 (split " " auth) = VStr t -> has_char " " t = false.
Proof.
  unfold item. intros H.
  destruct (nth_error (split " " auth) 1) as [piece|] eqn:Hnth; [|discriminate H].
  injection H as <-.
  pose proof (split_pieces_without_sep " " auth) as Hall.
  rewrite Forall_forall in Hall. apply Hall, list_elem_of_In.
  eapply nth_error_In. exact Hnth.
Qed.

Lemma strict_eq_string (t : string) (v : value) :
  strict_eq (VStr t) v = true -> v = VStr t.
Proof.
  destruct v; cbn; try discriminate. intros H. apply String.eqb_eq in H. congruence.
Qed.

(** X1. A request without an Authorization header, or with one that does
    not start with "Bearer " (capital B, one space), gets the UNAUTHORIZED
    nack.  Nothing is read or done before that: the state is untouched,
    and the answer is the same when the globals were never set. *)
Theorem handleApi_unauthorized (request : InboundRequest) (s : State) :
  (forall auth, in_authorization request = Some auth ->
     startsWith auth "Bearer " = false) ->
  handleApi request s =
  (Ok (nack (VStr "unknown") "UNAUTHORIZED" "Missing or invalid Authorization header"),
   s).
Proof.
  intros H. unfold handleApi.
  destruct (in_authorization request) as [auth|]; [|reflexivity].
  rewrite (H auth eq_refl). cbn [negb]. rewrite orb_true_r. reflexivity.
Qed.

(** X2. The token is the text between the first and the second space of
    the header: whatever follows a second space is never looked at.  A
    request whose header is "Bearer t junk" is treated, in every respect,
    as the same request with the header "Bearer t". *)
Theorem handleApi_ignores_trailing_text (request : InboundRequest) (t junk : string)
    (s : State) :
  has_char " " t = false ->
  item 1 (split " " ("Bearer " +:+ t +:+ " " +:+ junk)) = VStr t
  /\ handleApi (with_auth request ("Bearer " +:+ t +:+ " " +:+ junk)) s
     = handleApi (with_auth request ("Bearer " +:+ t)) s.
Proof.
  intros Ht. destruct (token_of_header t junk Ht) as [Hshort Hlong].
  split; [exact Hlong|].
  unfold handleApi, with_auth. cbn [in_authorization in_json].
  unfold startsWith. rewrite !prefix_append_true, Hshort, Hlong.
  reflexivity.
Qed.

(** X3. A request whose header passes the prefix check is rejected with
    the INVALID_TOKEN nack whenever the value bound to DA_GATEWAY_TOKEN is
    not the very string the header carries as token: a different string,
    a binding that is not a string, or no binding.  The state is
    untouched. *)
Theorem token_mismatch_is_rejected (request : InboundRequest) (auth : string)
    (vars : gmap string value) (s : State) :
  in_authorization request = Some auth ->
  startsWith auth "Bearer " = true ->
  G_ENV s = Some vars ->
  default VUndef (vars !! C_GATEWAY_TOKEN_NAME) <> item 1 (split " " auth) ->
  handleApi request s =
  (Ok (nack (VStr "unknown") "INVALID_TOKEN" "Token authentication failed"), s).
Proof.
  intros Hauth Hpre Henv Hne.
  apply (handleApi_token_check request auth vars s Hauth Hpre Henv).
  destruct (token_is_string auth Hpre) as (t & Ht). rewrite Ht in Hne |- *.
  destruct (strict_eq (VStr t) _) eqn:E; [|reflexivity].
  apply strict_eq_string in E. contradiction.
Qed.

(** X4. When the secret bound to DA_GATEWAY_TOKEN holds a space, no
    request can present it: every request whose header passes the prefix
    check gets the INVALID_TOKEN nack. *)
Theorem secret_with_space_locks_out (request : InboundRequest) (auth secret : string)
    (vars : gmap string value) (s : State) :
  in_authorization request = Some auth ->
  startsWith auth "Bearer " = true ->
  G_ENV s = Some vars ->
  vars !! C_GATEWAY_TOKEN_NAME = Some (VStr secret) ->
  has_char " " secret = true ->
  handleApi request s =
  (Ok (nack (VStr "unknown") "INVALID_TOKEN" "Token authentication failed"), s).
Proof.
  intros Hauth Hpre Henv Hsecret Hspace.
  apply (handleApi_token_check request auth vars s Hauth Hpre Henv).
  rewrite Hsecret. change (default VUndef (Some (VStr secret))) with (VStr secret).
  destruct (token_is_string auth Hpre) as (t & Ht). rewrite Ht.
  destruct (strict_eq (VStr t) (VStr secret)) eqn:E; [|reflexivity].
  apply strict_eq_string in E. injection E as ->.
  rewrite (token_without_space auth t Ht) in Hspace. discriminate Hspace.
Qed.

(** Lines 72-87 for an authenticated request. *)
Lemma handleApi_authenticated (request : InboundRequest) (s : State) :
  authenticated request s ->
  handleApi request s =
  match in_json request with
  | None => (Ok (nack (VStr "unknown") "INVALID_JSON" "Malformed JSON body"), s)
  | Some body =>
      (request_id ← lift (get_field body "request_id");
       version ← lift (get_field body "version");
       service ← lift (get_field body "service");
       if negb (truthy service) then
         mret (nack (or_else request_id (VStr "unknown")) "INVALID_FIELD"
                 "Missing field: service")
       else
         payload ← lift (get_field body "payload");
         if negb (truthy payload) then
           mret (nack (or_else request_id (VStr "unknown")) "INVALID_FIELD"
                   "Missing required field: payload")
         else
           versionText ← lift (ToString (or_else version (VStr "v1")));
           serviceText ← lift (ToString service);
           routeAndDispatch (or_else request_id (VStr "unknown"))
             (versionText +:+ "/" +:+ serviceText) body) s
  end.
Proof.
  intros (auth & vars & Hauth & Hpre & Henv & Htoken).
  unfold handleApi. rewrite Hauth, (startsWith_truthy auth Hpre), Hpre.
  cbn [negb orb].
  rewrite bind_run, (env_get_run _ _ vars Henv).
  change (ToString (VStr C_GATEWAY_TOKEN_NAME)) with (Ok C_GATEWAY_TOKEN_NAME).
  cbv beta iota. rewrite env_lookup_secret, Htoken. cbn [negb].
  destruct (in_json request); reflexivity.
Qed.

(** X5. An authenticated request whose body does not parse as JSON gets
    the INVALID_JSON nack, under the request id "unknown", and nothing
    else happens. *)
Theorem handleApi_invalid_json (request : InboundRequest) (s : State) :
  authenticated request s ->
  in_json request = None ->
  handleApi request s =
  (Ok (nack (VStr "unknown") "INVALID_JSON" "Malformed JSON body"), s).
Proof.
  intros Hauth Hjson. rewrite (handleApi_authenticated request s Hauth), Hjson.
  reflexivity.
Qed.

Lemma get_field_total (v x : value) (k k' : string) :
  get_field v k = Ok x -> exists y, get_field v k' = Ok y.
Proof. destruct v; cbn; try discriminate; eauto. Qed.

(** X6. An authenticated request whose JSON body has no truthy [service]
    gets the INVALID_FIELD nack for the service, before the payload is
    looked at.  The nack echoes the body's [request_id] when that is
    truthy and says "unknown" otherwise.  A body that is no record (an
    array, a string, a number, a boolean) has no [service] and no
    [request_id], so it ends here too. *)
Theorem service_is_required (request : InboundRequest) (body requestId service : value)
    (s : State) :
  authenticated request s ->
  in_json request = Some body ->
  get_field body "request_id" = Ok requestId ->
  get_field body "service" = Ok service ->
  truthy service = false ->
  handleApi request s =
  (Ok (nack (or_else requestId (VStr "unknown")) "INVALID_FIELD"
         "Missing field: service"), s).
Proof.
  intros Hauth Hjson Hid Hservice Hfalsy.
  rewrite (handleApi_authenticated request s Hauth), Hjson.
  destruct (get_field_total body requestId "request_id" "version" Hid) as (version & Hv).
  rewrite (lift_bind_ok _ requestId _ s Hid), (lift_bind_ok _ version _ s Hv),
    (lift_bind_ok _ service _ s Hservice), Hfalsy.
  reflexivity.
Qed.

(** X7. An authenticated request whose JSON body is [null] gets no
    response at all: reading [body.request_id] throws, outside every
    [try], and [handleApi] throws to its caller. *)
Theorem null_body_throws (request : InboundRequest) (s : State) :
  authenticated request s ->
  in_json request = Some VNull ->
  exists message, handleApi request s = (Throw message, s).
Proof.
  intros Hauth Hjson. rewrite (handleApi_authenticated request s Hauth), Hjson.
  eexists. reflexivity.
Qed.

(** ** What dispatch answers *)

(** The REST case of the switch, by what the network does. *)
Lemma dispatch_REST_run (route envelope : list (string * value))
    (vars : gmap string value) (r : Request) (s : State) :
  G_ENV s = Some vars ->
  prop route "type" = VStr "REST" ->
  restRequest route vars (VObj envelope) = Ok r ->
  dispatch (VObj route) (VObj envelope) s =
  match network r with
  | Some res => (Ok res, after s (Fetch r))
  | None => dispatchFailed (VObj envelope) "fetch failed" (after s (Fetch r))
  end.
Proof.
  intros Henv Htype Hbuilt. unfold dispatch, try_catch.
  rewrite bind_run. cbn [lift get_field]. fold (prop route "type").
  rewrite Htype. cbn [strict_eq String.eqb Ascii.eqb Bool.eqb].
  rewrite (handleRest_run route (VObj envelope) vars s Henv), Hbuilt, fetch_run.
  destruct (network r); reflexivity.
Qed.

(** The ABLY case of the switch, by what the network does. *)
Lemma dispatch_ABLY_run (route envelope : list (string * value))
    (vars : gmap string value) (r : Request) (channelText : string) (s : State) :
  G_ENV s = Some vars ->
  prop route "type" = VStr "ABLY" ->
  ablyRequest route vars envelope = Ok r ->
  ToString (prop route "channelName") = Ok channelText ->
  dispatch (VObj route) (VObj envelope) s =
  match network r with
  | Some res =>
      (Ok (if resp_ok res then
             jsonSuccess
               [("status", VStr "Accepted");
                ("message", VStr ("Event published successfully to Ably channel: "
                                    +:+ channelText))]
           else
             jsonError ("Failed to publish event to Ably: " +:+ resp_text res) 502),
       after s (Fetch r))
  | None => dispatchFailed (VObj envelope) "fetch failed" (after s (Fetch r))
  end.
Proof.
  intros Henv Htype Hbuilt Hchannel.
  rewrite (dispatch_ABLY route envelope s Htype). unfold try_catch.
  rewrite (handleAbly_run route envelope vars s Henv), Hbuilt, bind_run, fetch_run.
  destruct (network r) as [res|]; [|reflexivity].
  destruct (resp_ok res); [rewrite bind_run, lift_run, Hchannel|]; reflexivity.
Qed.

(** X8. REST pass-through: when the backend answers the forwarded POST
    (the request [restRequest], built when the credential and the target
    print), the gateway's answer is the backend's response itself,
    status, headers and body, whatever the status is; nothing is wrapped
    and nothing is logged. *)
Theorem rest_answer_passes_through (route envelope : list (string * value))
    (vars : gmap string value) (r : Request) (res : Response) (s : State) :
  G_ENV s = Some vars ->
  prop route "type" = VStr "REST" ->
  restRequest route vars (VObj envelope) = Ok r ->
  network r = Some res ->
  dispatch (VObj route) (VObj envelope) s = (Ok res, after s (Fetch r)).
Proof.
  intros Henv Htype Hbuilt Hnet.
  rewrite (dispatch_REST_run route envelope vars r s Henv Htype Hbuilt), Hnet.
  reflexivity.
Qed.

(** X9. When the outbound call of a REST or an ABLY route is rejected by
    the network and the [type] field of the envelope prints, dispatch
    does not throw: it answers with status 500 and the fixed text
    "Gateway processing failed", which carries nothing of the error, and
    writes one line to the console.  No second call is made.  When the
    envelope's [type] does not print, the log line of the [catch] (line
    134) throws instead, and dispatch throws after the one call. *)
Theorem rejected_call_is_500 (route envelope : list (string * value))
    (vars : gmap string value) (r : Request) (s : State) :
  G_ENV s = Some vars ->
  (prop route "type" = VStr "REST"
   /\ restRequest route vars (VObj envelope) = Ok r)
  \/ (prop route "type" = VStr "ABLY"
      /\ ablyRequest route vars envelope = Ok r) ->
  network r = None ->
  match ToString (prop envelope "type") with
  | Ok _ =>
      exists line : string,
        dispatch (VObj route) (VObj envelope) s =
        (Ok (jsonError "Gateway processing failed" 500),
         after (after s (Fetch r)) (Console "error" line))
        /\ resp_status (jsonError "Gateway processing failed" 500) = 500
  | Throw e =>
      dispatch (VObj route) (VObj envelope) s = (Throw e, after s (Fetch r))
  end.
Proof.
  intros Henv Hroute Hnet.
  assert (Hrun : dispatch (VObj route) (VObj envelope) s =
                 dispatchFailed (VObj envelope) "fetch failed" (after s (Fetch r))).
  { destruct Hroute as [[Htype Hbuilt]|[Htype Hbuilt]].
    - rewrite (dispatch_REST_run route envelope vars r s Henv Htype Hbuilt), Hnet.
      reflexivity.
    - destruct (ablyRequest_channel _ _ _ _ Hbuilt) as (channelText & Hchannel).
      rewrite (dispatch_ABLY_run route envelope vars r channelText s Henv Htype
                 Hbuilt Hchannel), Hnet.
      reflexivity. }
  rewrite Hrun, dispatchFailed_run.
  destruct (ToString (prop envelope "type")); [|reflexivity].
  eexists. split; reflexivity.
Qed.

(** X10. The answer for an ABLY route, when the bus answers the publish
    request, is built by the gateway from the bus service's response:
    status 200 with [status: "Accepted"] and the channel name when the
    bus answered with a status from 200 to 299, and otherwise status 502
    with the text of the bus's answer after "Failed to publish event to
    Ably: ".  The bus's own status and headers are never passed on. *)
Theorem ably_answer (route envelope : list (string * value))
    (vars : gmap string value) (r : Request) (res : Response) (s : State) :
  G_ENV s = Some vars ->
  prop route "type" = VStr "ABLY" ->
  ablyRequest route vars envelope = Ok r ->
  network r = Some res ->
  exists (answer : Response) (channelText : string),
    ToString (prop route "channelName") = Ok channelText
    /\ dispatch (VObj route) (VObj envelope) s = (Ok answer, after s (Fetch r))
    /\ answer =
       (if (200 <=? resp_status res) && (resp_status res <=? 299) then
          jsonSuccess
            [("status", VStr "Accepted");
             ("message", VStr ("Event published successfully to Ably channel: "
                                 +:+ channelText))]
        else
          jsonError ("Failed to publish event to Ably: "
                       +:+ default "" (resp_body res)) 502)
    /\ resp_status answer =
       (if (200 <=? resp_status res) && (resp_status res <=? 299) then 200 else 502)
    /\ resp_headers answer = [("Content-Type", "application/json")]%string.
Proof.
  intros Henv Htype Hbuilt Hnet.
  destruct (ablyRequest_channel _ _ _ _ Hbuilt) as (channelText & Hchannel).
  rewrite (dispatch_ABLY_run route envelope vars r channelText s Henv Htype
             Hbuilt Hchannel), Hnet.
  eexists _, channelText. split; [exact Hchannel|]. split; [reflexivity|].
  unfold resp_ok, resp_text.
  destruct ((200 <=? resp_status res) && (resp_status res <=? 299)); repeat split.
Qed.

(** ** More on the table_name step *)

(** The step on a route record and an envelope record, case by case. *)
Lemma injectTableName_run (route envelope : list (string * value)) (s : State) :
  injectTableName (VObj route) (VObj envelope) s =
  match prop envelope "payload" with
  | VObj payload =>
      (Ok (VObj (assign_prop "payload"
                   (VObj (if truthy (prop route "table_name")
                          then assign_prop "table_name" (prop route "table_name") payload
                          else remove_prop "table_name" payload))
                   envelope)), s)
  | VArr _ => (Ok (VObj envelope), s)
  | _ =>
      match ToString (prop route "targetUrl") with
      | Ok url =>
          (Ok (VObj envelope),
           after s (Console "warn"
                      ("Non-JSON or unparseable body for " +:+ url
                         +:+ ", skipping modification.")))
      | Throw e => (Throw e, s)
      end
  end.
Proof.
  unfold injectTableName, try_catch.
  rewrite bind_run. cbn [lift get_field]. fold (prop route "table_name").
  fold (prop envelope "payload").
  destruct (prop envelope "payload") as [| |b|x|t|items|payload] eqn:Hpayload;
    destruct (truthy (prop route "table_name")) eqn:Htable;
    run; cbn [get_field set_field has_field delete_field];
    fold (prop envelope "payload"); fold (prop route "table_name");
    fold (prop route "targetUrl"); rewrite ?Hpayload; run;
    cbn [get_field set_field has_field delete_field]; run;
    fold (prop route "targetUrl");
    try (destruct (ToString (prop route "targetUrl")); reflexivity);
    try reflexivity.
  - rewrite (assign_prop_same "payload" (VArr items) envelope); [reflexivity|].
    apply prop_lookup; [exact Hpayload|left; reflexivity].
  - destruct (bool_decide (is_Some (lookup_prop "table_name" payload))) eqn:Hin; run;
      [reflexivity|].
    apply bool_decide_eq_false in Hin.
    assert (Hnone : lookup_prop "table_name" payload = None).
    { destruct (lookup_prop "table_name" payload); [|reflexivity].
      exfalso. apply Hin. eauto. }
    rewrite (remove_prop_absent _ _ Hnone),
      (assign_prop_same "payload" (VObj payload) envelope); [reflexivity|].
    apply prop_lookup; [exact Hpayload|left; reflexivity].
Qed.

Lemma keys_assign_present (k : string) (v v' : value) (props : list (string * value)) :
  lookup_prop k props = Some v' ->
  map fst (assign_prop k v props) = map fst props.
Proof.
  induction props as [|[k0 v0] props IH]; cbn [lookup_prop assign_prop];
    [discriminate|].
  destruct (String.eqb k k0) eqn:E.
  - intros _. apply String.eqb_eq in E. subst k0. reflexivity.
  - intros H. cbn [map fst]. rewrite (IH H). reflexivity.
Qed.

Lemma assign_prop_twice (k : string) (v v' : value) (props : list (string * value)) :
  assign_prop k v (assign_prop k v' props) = assign_prop k v props.
Proof.
  induction props as [|[k0 v0] props IH]; cbn [assign_prop].
  - rewrite String.eqb_refl. reflexivity.
  - destruct (String.eqb k k0) eqn:E; cbn [assign_prop].
    + rewrite String.eqb_refl. reflexivity.
    + rewrite E, IH. reflexivity.
Qed.

Lemma remove_prop_twice (k : string) (props : list (string * value)) :
  remove_prop k (remove_prop k props) = remove_prop k props.
Proof. apply remove_prop_absent, lookup_remove_same. Qed.

(** X12. For a route whose [targetUrl] prints, as every string does, the
    table_name step touches the payload and nothing else of the
    envelope: the envelope handed on has the same keys in the same order
    as the one that came, and every key but [payload] keeps its value. *)
Theorem table_name_step_keeps_envelope (route envelope : list (string * value))
    (url : string) (s : State) :
  ToString (prop route "targetUrl") = Ok url ->
  exists envelope' : list (string * value),
    (injectTableName (VObj route) (VObj envelope) s).1 = Ok (VObj envelope')
    /\ map fst envelope' = map fst envelope
    /\ forall k, String.eqb k "payload" = false ->
         lookup_prop k envelope' = lookup_prop k envelope.
Proof.
  intros Hurl. rewrite injectTableName_run, Hurl.
  destruct (prop envelope "payload") as [| |b|x|t|items|payload] eqn:Hpayload;
    try (exists envelope; repeat split; reflexivity).
  eexists. split; [reflexivity|]. split.
  - apply (keys_assign_present _ _ (VObj payload)).
    apply prop_lookup; [exact Hpayload|left; reflexivity].
  - intros k Hk. apply lookup_assign_other. exact Hk.
Qed.

(** X13. For a route whose [targetUrl] prints, the table_name step is
    idempotent: run again on the envelope it handed on, for the same
    route, it hands on that envelope unchanged. *)
Theorem table_name_step_idempotent (route envelope : list (string * value))
    (url : string) (s : State) :
  ToString (prop route "targetUrl") = Ok url ->
  exists envelope' : list (string * value),
    (injectTableName (VObj route) (VObj envelope) s).1 = Ok (VObj envelope')
    /\ (injectTableName (VObj route) (VObj envelope')
          (injectTableName (VObj route) (VObj envelope) s).2).1
       = Ok (VObj envelope').
Proof.
  intros Hurl. rewrite (injectTableName_run route envelope s), Hurl.
  destruct (prop envelope "payload") as [| |b|x|t|items|payload] eqn:Hpayload;
    try (exists envelope; split; [reflexivity|];
         rewrite injectTableName_run, Hpayload, ?Hurl; reflexivity).
  eexists. split; [reflexivity|]. cbn [snd].
  rewrite injectTableName_run, prop_assign_same, assign_prop_twice.
  destruct (truthy (prop route "table_name")).
  - rewrite assign_prop_twice. reflexivity.
  - rewrite remove_prop_twice. reflexivity.
Qed.

(** ** Effects of one request *)

Lemma frugal_ret {A : Type} (a : A) : frugal 0 0 (mret a : M A).
Proof. intros s. cbn. repeat split; try reflexivity. exists []. rewrite app_nil_r. auto. Qed.

Lemma frugal_lift {A : Type} (r : Result A) : frugal 0 0 (lift r).
Proof. intros s. cbn. repeat split; try reflexivity. exists []. rewrite app_nil_r. auto. Qed.

Lemma frugal_throw {A : Type} (message : string) : frugal 0 0 (throw message : M A).
Proof. intros s. cbn. repeat split; try reflexivity. exists []. rewrite app_nil_r. auto. Qed.

Lemma frugal_read_G_DB : frugal 0 0 read_G_DB.
Proof. intros s. cbn. repeat split; try reflexivity. exists []. rewrite app_nil_r. auto. Qed.

Lemma frugal_read_G_ENV : frugal 0 0 read_G_ENV.
Proof. intros s. cbn. repeat split; try reflexivity. exists []. rewrite app_nil_r. auto. Qed.

Lemma frugal_console (level message : string) : frugal 0 0 (console level message).
Proof. intros s. cbn. repeat split; try reflexivity. exists [Console level message]. auto. Qed.

Lemma frugal_weaken {A : Type} (nq nf nq' nf' : nat) (m : M A) :
  frugal nq nf m -> (nq <= nq')%nat -> (nf <= nf')%nat -> frugal nq' nf' m.
Proof.
  intros H Hq Hf s. destruct (H s) as (Hdb & Henv & log & Hlog & Hnq & Hnf).
  split; [assumption|]. split; [assumption|].
    exists log. split; [assumption|]. split; lia.
Qed.

Lemma frugal_bind {A B : Type} (nq nf nq' nf' : nat) (m : M A) (f : A -> M B) :
  frugal nq nf m -> (forall a, frugal nq' nf' (f a)) ->
  frugal (nq + nq') (nf + nf') (m ≫= f).
Proof.
  intros Hm Hf s. rewrite bind_run.
  destruct (Hm s) as (Hdb & Henv & log & Hlog & Hnq & Hnf).
  destruct (m s) as [[a|e] s1]; cbn [snd] in *.
  - destruct (Hf a s1) as (Hdb' & Henv' & log' & Hlog' & Hnq' & Hnf').
    rewrite Hdb', Henv', Hlog', Hlog, Hdb, Henv.
    split; [reflexivity|]. split; [reflexivity|].
    exists (log ++ log'). rewrite app_assoc, queries_app, requests_app, !length_app.
    split; [reflexivity|]. split; lia.
  - split; [assumption|]. split; [assumption|].
    exists log. split; [assumption|]. split; lia.
Qed.

Lemma frugal_try_catch {A : Type} (nq nf nq' nf' : nat) (m : M A)
    (handler : string -> M A) :
  frugal nq nf m -> (forall e, frugal nq' nf' (handler e)) ->
  frugal (nq + nq') (nf + nf') (try_catch m handler).
Proof.
  intros Hm Hh s. unfold try_catch.
  destruct (Hm s) as (Hdb & Henv & log & Hlog & Hnq & Hnf).
  destruct (m s) as [[a|e] s1]; cbn [snd] in *.
  - split; [assumption|]. split; [assumption|].
    exists log. split; [assumption|]. split; lia.
  - destruct (Hh e s1) as (Hdb' & Henv' & log' & Hlog' & Hnq' & Hnf').
    rewrite Hdb', Henv', Hlog', Hlog, Hdb, Henv.
    split; [reflexivity|]. split; [reflexivity|].
    exists (log ++ log'). rewrite app_assoc, queries_app, requests_app, !length_app.
    split; [reflexivity|]. split; lia.
Qed.

Lemma frugal_fetch (r : Request) : frugal 0 1 (fetch r).
Proof.
  intros s. rewrite fetch_run. cbn. repeat split.
  exists [Fetch r]. cbn. repeat split; lia.
Qed.

Lemma frugal_d1_all (db : D1) (sql key : string) : frugal 1 0 (d1_all db sql key).
Proof.
  intros s. unfold d1_all. run. destruct (db sql key); cbn; repeat split;
    exists [Query sql key]; cbn; repeat split; lia.
Qed.

Lemma frugal_env_get (name : value) : frugal 0 0 (env_get name).
Proof.
  unfold env_get. apply (frugal_bind 0 0 0 0); [apply frugal_read_G_ENV|].
  intros [vars|]; [|apply frugal_throw].
  apply (frugal_bind 0 0 0 0); [apply frugal_lift|]. intros key. apply frugal_ret.
Qed.

(** Solves [frugal 0 0] of code made of reads, logs and pure steps. *)
Ltac quiet :=
  repeat first
    [ apply frugal_ret | apply frugal_lift | apply frugal_throw
    | apply frugal_console | apply frugal_env_get | apply frugal_read_G_ENV
    | apply (frugal_bind 0 0 0 0); [|intros ?]
    | match goal with
      | |- frugal _ _ (if ?b then _ else _) => destruct b
      end ].

Lemma frugal_findRouteFromDB (key : string) : frugal 1 0 (findRouteFromDB key).
Proof.
  unfold findRouteFromDB.
  apply (frugal_bind 0 0 1 0); [apply frugal_read_G_DB|].
  intros [db|]; [|apply (frugal_weaken 0 0); [apply frugal_ret|lia|lia]].
  apply (frugal_try_catch 1 0 0 0); [|intros e; quiet].
  apply (frugal_bind 1 0 0 0); [apply frugal_d1_all|].
  intros [[|row rows]|]; [quiet| |quiet].
  apply (frugal_bind 0 0 0 0); [apply frugal_lift|]. intros t1.
  destruct (negb (truthy t1)); [quiet|].
  apply (frugal_try_catch 0 0 0 0); [|intros e; quiet].
  unfold JSON_parse'. apply (frugal_bind 0 0 0 0); [|intros ?; quiet].
  apply (frugal_bind 0 0 0 0); [apply frugal_lift|]. intros text.
  destruct (JSON_parse text); quiet.
Qed.

Lemma frugal_handleRest (route bodyJson : value) : frugal 0 1 (handleRest route bodyJson).
Proof.
  unfold handleRest.
  apply (frugal_bind 0 0 0 1); [apply frugal_lift|]. intros token.
  apply (frugal_bind 0 0 0 1); [quiet|]. intros routeToken.
  apply (frugal_bind 0 0 0 1); [quiet|]. intros headers.
  apply (frugal_bind 0 0 0 1); [apply frugal_lift|]. intros targetUrl.
  apply (frugal_bind 0 0 0 1); [apply frugal_lift|]. intros url.
  apply (frugal_bind 0 1 0 0); [apply frugal_fetch|]. intros res. quiet.
Qed.

Lemma frugal_handleAbly (route bodyJson : value) : frugal 0 1 (handleAbly route bodyJson).
Proof.
  unfold handleAbly.
  apply (frugal_bind 0 0 0 1); [apply frugal_lift|]. intros token.
  apply (frugal_bind 0 0 0 1); [quiet|]. intros routeToken.
  apply (frugal_bind 0 0 0 1); [apply frugal_lift|]. intros channel.
  apply (frugal_bind 0 0 0 1); [apply frugal_lift|]. intros channelText.
  apply (frugal_bind 0 0 0 1); [apply frugal_lift|]. intros segment.
  apply (frugal_bind 0 0 0 1); [apply frugal_lift|]. intros action.
  apply (frugal_bind 0 0 0 1); [apply frugal_lift|]. intros credential.
  apply (frugal_bind 0 0 0 1); [apply frugal_lift|]. intros basic.
  apply (frugal_bind 0 1 0 0); [apply frugal_fetch|]. intros res. quiet.
Qed.

Lemma frugal_injectTableName (route body : value) :
  frugal 0 0 (injectTableName route body).
Proof.
  unfold injectTableName.
  apply (frugal_try_catch 0 0 0 0); [|intros e; quiet].
  apply (frugal_bind 0 0 0 0); [apply frugal_lift|]. intros table_name.
  destruct (truthy table_name); [quiet|].
  apply (frugal_bind 0 0 0 0); [apply frugal_lift|]. intros payload.
  apply (frugal_bind 0 0 0 0); [apply frugal_lift|]. intros [|]; quiet.
Qed.

Lemma frugal_dispatch (route body : value) : frugal 0 1 (dispatch route body).
Proof.
  unfold dispatch.
  apply (frugal_try_catch 0 1 0 0); [|intros e; unfold dispatchFailed; quiet].
  apply (frugal_bind 0 0 0 1); [apply frugal_lift|]. intros type.
  destruct (strict_eq type (VStr "REST")); [apply frugal_handleRest|].
  destruct (strict_eq type (VStr "ABLY")); [apply frugal_handleAbly|].
  apply (frugal_weaken 0 0); [quiet|lia|lia].
Qed.

Lemma frugal_routeAndDispatch (requestId : value) (key : string) (body : value) :
  frugal 1 1 (routeAndDispatch requestId key body).
Proof.
  unfold routeAndDispatch.
  apply (frugal_bind 1 0 0 1).
  - unfold resolveRoute. destruct (negb (truthy _));
      [apply frugal_findRouteFromDB|apply (frugal_weaken 0 0); [quiet|lia|lia]].
  - intros route. destruct (negb (truthy route));
      [apply (frugal_weaken 0 0); [quiet|lia|lia]|].
    apply (frugal_bind 0 0 0 1); [apply frugal_injectTableName|].
    intros body'. apply frugal_dispatch.
Qed.

Lemma frugal_handleApi (request : InboundRequest) : frugal 1 1 (handleApi request).
Proof.
  unfold handleApi.
  destruct (in_authorization request) as [auth|];
    [|apply (frugal_weaken 0 0); [quiet|lia|lia]].
  destruct (negb (truthy (VStr auth)) || negb (startsWith auth "Bearer "));
    [apply (frugal_weaken 0 0); [quiet|lia|lia]|].
  apply (frugal_bind 0 0 1 1); [apply frugal_env_get|]. intros secret.
  destruct (negb (strict_eq _ secret)); [apply (frugal_weaken 0 0); [quiet|lia|lia]|].
  destruct (in_json request) as [body|]; [|apply (frugal_weaken 0 0); [quiet|lia|lia]].
  apply (frugal_bind 0 0 1 1); [apply frugal_lift|]. intros request_id.
  apply (frugal_bind 0 0 1 1); [apply frugal_lift|]. intros version.
  apply (frugal_bind 0 0 1 1); [apply frugal_lift|]. intros service.
  destruct (negb (truthy service)); [apply (frugal_weaken 0 0); [quiet|lia|lia]|].
  apply (frugal_bind 0 0 1 1); [apply frugal_lift|]. intros payload.
  destruct (negb (truthy payload)); [apply (frugal_weaken 0 0); [quiet|lia|lia]|].
  apply (frugal_bind 0 0 1 1); [apply frugal_lift|]. intros versionText.
  apply (frugal_bind 0 0 1 1); [apply frugal_lift|]. intros serviceText.
  apply frugal_routeAndDispatch.
Qed.

(** X14. One request costs at most one database query and at most one
    outbound call, whatever the request, the routes, the store and the
    network are and however the request ends (a response or a throw).
    The handlers never assign the globals: after the exported [fetch]
    they hold the database handle and the bindings of the [env] it was
    given, and the trace of before is only extended. *)
Theorem one_query_one_call (request : InboundRequest) (env : Env) (s : State) :
  G_DB (default_fetch request env s).2 = env_DB env
  /\ G_ENV (default_fetch request env s).2 = Some (env_vars env)
  /\ exists log : list event,
       trace (default_fetch request env s).2 = trace s ++ log
       /\ (length (queries log) <= 1)%nat
       /\ (length (requests log) <= 1)%nat.
Proof.
  unfold default_fetch. rewrite bind_run. cbn [set_globals].
  set (s0 := {| G_DB := env_DB env; G_ENV := Some (env_vars env); trace := trace s |}).
  assert (Hquiet : forall res : Response,
             G_DB ((mret res : M Response) s0).2 = env_DB env
             /\ G_ENV ((mret res : M Response) s0).2 = Some (env_vars env)
             /\ exists log : list event,
                  trace ((mret res : M Response) s0).2 = trace s ++ log
                  /\ (length (queries log) <= 1)%nat
                  /\ (length (requests log) <= 1)%nat).
  { intros res. cbn. repeat split. exists []. rewrite app_nil_r. cbn.
    repeat split; lia. }
  destruct (negb (String.eqb (in_method request) "POST")); [apply Hquiet|].
  destruct (String.eqb (in_pathname request) "/api"); [|apply Hquiet].
  exact (frugal_handleApi request s0).
Qed.

End GatewayFacts.

(** ** The theorems on concrete requests *)

#[local] Existing Instance stub_runtime.

(** The string functions on known inputs. *)

Example btoa_undefined : btoa "undefined" = Ok "dW5kZWZpbmVk".
Proof. reflexivity. Qed.

Example btoa_padding :
  btoa "key:secret!" = Ok "a2V5OnNlY3JldCE=" /\ btoa "a" = Ok "YQ==".
Proof. split; reflexivity. Qed.

(** A code unit up to U+00FF is one byte to [btoa]; one above it is an
    error. *)
Example btoa_code_units :
  btoa e_acute = Ok "6Q==" /\ btoa euro_sign = Throw "Invalid character".
Proof. split; reflexivity. Qed.

Example encodeURIComponent_sample :
  encodeURIComponent "system bus/v1" = Ok "system%20bus%2Fv1"
  /\ encodeURIComponent euro_sign = Ok "%E2%82%AC"
  /\ encodeURIComponent lone_surrogate = Throw "URI malformed".
Proof. repeat split. Qed.

(** A record prints unless it has a [toString] key of its own; an array
    prints its items joined by commas. *)
Example ToString_sample :
  ToString (VObj [("a", VNum 1)]) = Ok "[object Object]"
  /\ ToString (VObj [("toString", VNum 1)])
     = Throw "Cannot convert object to primitive value"
  /\ ToString (VArr [VStr "a"; VNull; VArr [VNum 2; VBool true]]) = Ok "a,,2,true"
  /\ ToString (VArr [VObj [("toString", VNum 1)]])
     = Throw "Cannot convert object to primitive value".
Proof. repeat split. Qed.

(** The environment of the examples through a computed key: an own
    binding, an inherited member, and a name that is neither. *)
Example env_lookup_sample :
  env_lookup sample_vars "ABLY_API_KEY" = VStr "key:secret!"
  /\ env_lookup sample_vars "toString" = VStr "function toString() { [native code] }"
  /\ env_lookup sample_vars "constructor" = VStr "function Object() { [native code] }"
  /\ env_lookup sample_vars "NO_SUCH_SECRET" = VUndef.
Proof. repeat split. Qed.

Example split_bearer :
  split " " "Bearer abc def" = ["Bearer"; "abc"; "def"]%string
  /\ split " " "Bearer " = ["Bearer"; ""]%string.
Proof. split; reflexivity. Qed.

(** C10 on a request with a bearer token, in an environment that binds
    only an unrelated secret. *)
Lemma handleApi_fails_closed_witness :
  handleApi (router := template_router)
    (api_request "Bearer s3cret" (VObj bus_envelope))
    {| G_DB := Some stocked_db; G_ENV := Some {[ "ABLY_API_KEY" := VStr "k" ]};
       trace := [] |}
  = (Ok (nack (VStr "unknown") "INVALID_TOKEN" "Token authentication failed"),
     {| G_DB := Some stocked_db; G_ENV := Some {[ "ABLY_API_KEY" := VStr "k" ]};
        trace := [] |}).
Proof.
  apply (handleApi_fails_closed_without_secret
           (api_request "Bearer s3cret" (VObj bus_envelope)) "Bearer s3cret"
           {[ "ABLY_API_KEY" := VStr "k" ]}); reflexivity.
Defined.

(** X16 on three routes: a token beside an [authKeyEnvName], the
    template's REST route, and a route with neither. *)
Lemma handleRest_credential_witness :
  map req_headers
    (requests (trace (handleRest (VObj orders_route) (VObj bus_envelope)
                        (serving None)).2))
  = [[("Content-Type", "application/json"); ("Authorization", "Bearer T1")]]%string
  /\ map req_headers
       (requests (trace (handleRest (VObj demorest_route) (VObj bus_envelope)
                           (serving None)).2))
     = [[("Content-Type", "application/json"); ("Authorization", "Bearer R1")]]%string
  /\ map req_headers
       (requests (trace (handleRest (VObj open_bus_route) (VObj bus_envelope)
                           (serving None)).2))
     = [[("Content-Type", "application/json")]]%string.
Proof.
  split; [|split].
  - rewrite (proj1 (handleRest_credential orders_route (VObj bus_envelope)
                      sample_vars (serving None) "https://orders.example.com"
                      eq_refl eq_refl) "T1" eq_refl eq_refl).
    reflexivity.
  - rewrite (proj1 (proj2 (handleRest_credential demorest_route (VObj bus_envelope)
                             sample_vars (serving None)
                             "https://v1-users-api.example.com" eq_refl eq_refl))
               "REST_API_BEARER_TOKEN" (VStr "R1") "R1"
               eq_refl eq_refl eq_refl eq_refl eq_refl eq_refl).
    reflexivity.
  - rewrite (proj1 (proj2 (proj2 (handleRest_credential open_bus_route
                                    (VObj bus_envelope) sample_vars (serving None)
                                    "undefined" eq_refl eq_refl)))
               eq_refl (or_introl eq_refl)).
    reflexivity.
Defined.

(** C7 at its failing input: a REST route without a token whose
    [authKeyEnvName] is toString, in an environment that binds no secret
    of that name.  The lookup [G_ENV[route.authKeyEnvName]] finds the
    function that every object inherits, which is truthy, and the POST
    carries an Authorization header made of that function's text. *)
Example inherited_member_is_sent_as_credential :
  sample_vars !! "toString" = None
  /\ map req_headers
       (requests
          (trace (handleRest
                    (VObj [("type", VStr "REST");
                           ("targetUrl", VStr "https://orders.example.com");
                           ("authKeyEnvName", VStr "toString")])
                    (VObj bus_envelope) (serving None)).2))
     = [[("Content-Type", "application/json");
         ("Authorization", "Bearer function toString() { [native code] }")]]%string.
Proof. vm_compute. repeat split. Qed.

(** C1 on the template's bus route, and on a bus route whose channel
    name cannot be encoded (nothing is published). *)
Lemma dispatch_ABLY_publishes_envelope_witness :
  (exists r : Request,
     ablyRequest demoably_route sample_vars bus_envelope = Ok r
     /\ requests (trace (dispatch (VObj demoably_route) (VObj bus_envelope)
                          (serving None)).2) = [r]
     /\ req_body r =
        JSON_stringify
          (VArr [VObj [("name", VStr "gateway-event"); ("data", VObj bus_envelope)]]))
  /\ requests
       (trace (dispatch (VObj [("type", VStr "ABLY"); ("token", VStr "k");
                               ("channelName", VStr lone_surrogate)])
                 (VObj bus_envelope) (serving None)).2) = [].
Proof.
  split.
  - eexists. split; [reflexivity|].
    exact (dispatch_ABLY_publishes_envelope demoably_route bus_envelope sample_vars
             (serving None) eq_refl eq_refl).
  - exact (dispatch_ABLY_publishes_envelope
             [("type", VStr "ABLY"); ("token", VStr "k");
              ("channelName", VStr lone_surrogate)]
             bus_envelope sample_vars (serving None) eq_refl eq_refl).
Defined.

(** C1 as stated fails on a request for the template's bus route: the one
    body published carries the whole envelope under the name
    gateway-event, and that text is not the text of
    [[{name: payload.action, data: payload}]]. *)
Lemma publish_body_is_not_payload :
  map req_body
    (requests (trace (default_fetch (router := template_router)
                        (api_request "Bearer s3cret" (VObj bus_envelope))
                        (sample_env None) initial).2))
  = [JSON_stringify
       (VArr [VObj [("name", VStr "gateway-event"); ("data", VObj bus_envelope)]])]
  /\ prop bus_envelope "payload" = VObj [("action", VStr "created"); ("id", VStr "7")]
  /\ bool_decide
       (JSON_stringify
          (VArr [VObj [("name", VStr "gateway-event"); ("data", VObj bus_envelope)]])
        = JSON_stringify
            (VArr [VObj [("name", VStr "created");
                         ("data", prop bus_envelope "payload")]]))
     = false.
Proof. vm_compute. repeat split. Qed.

(** C3 at its failing input: for a bus route with neither [token] nor
    [authKeyEnvName] the publish request still carries an Authorization
    header, the base64 text of the word undefined, while the REST handler
    sends no Authorization header for the same route. *)
Example handleAbly_sends_header_without_credential :
  routeToken_of open_bus_route sample_vars = Ok VUndef
  /\ map req_headers
       (requests (trace (handleAbly (VObj open_bus_route) (VObj bus_envelope)
                           (serving None)).2))
     = [[("Authorization", "Basic dW5kZWZpbmVk");
         ("Content-Type", "application/json")]]%string
  /\ map req_headers
       (requests (trace (handleRest (VObj open_bus_route) (VObj bus_envelope)
                           (serving None)).2))
     = [[("Content-Type", "application/json")]]%string.
Proof. vm_compute. repeat split. Qed.

(** X17 on a route of type KAFKA and an envelope whose own [type] says REST. *)
Lemma dispatch_unsupported_type_witness :
  dispatch (VObj [("type", VStr "KAFKA")])
    (VObj [("service", VStr "queue"); ("payload", VBool true); ("type", VStr "REST")])
    (serving None)
  = (Ok (jsonError "Unsupported service type: REST" 501), serving None).
Proof.
  exact (proj1 (dispatch_unsupported_type (VObj [("type", VStr "KAFKA")])
                  (VObj [("service", VStr "queue"); ("payload", VBool true);
                         ("type", VStr "REST")])
                  (VStr "KAFKA") (VStr "REST") "REST" (serving None)
                  eq_refl eq_refl eq_refl eq_refl eq_refl)).
Defined.

(** C4 at its failing input: a request for the route of type KAFKA whose
    envelope carries [type: {toString: 1}].  The template literal of line
    131 throws inside the [try]; the [catch] prints the same field on
    line 134 and throws again, out of [handleApi]: there is no response,
    and no 501. *)
Example unprintable_type_escapes_dispatch :
  DA_SERVICE_MAP (Router := orders_router) !! "v1/queue"
  = Some (VObj [("type", VStr "KAFKA")])
  /\ dispatch (VObj [("type", VStr "KAFKA")])
       (VObj [("version", VStr "v1"); ("service", VStr "queue");
              ("payload", VObj []); ("type", VObj [("toString", VNum 1)])])
       (serving None)
     = (Throw "Cannot convert object to primitive value", serving None)
  /\ default_fetch (router := orders_router)
       (api_request "Bearer s3cret"
          (VObj [("version", VStr "v1"); ("service", VStr "queue");
                 ("payload", VObj []); ("type", VObj [("toString", VNum 1)])]))
       (sample_env None) initial
     = (Throw "Cannot convert object to primitive value", serving None).
Proof. vm_compute. repeat split. Qed.

Lemma sample_authenticated (body : value) (db : option D1) :
  authenticated (api_request "Bearer s3cret" body) (serving db).
Proof. exists "Bearer s3cret", sample_vars. repeat split. Defined.

(** C2 on an empty record as payload (accepted: the request goes on to
    route resolution) and on an empty string as payload (rejected). *)
Lemma payload_must_be_truthy_witness :
  handleApi (router := template_router)
    (api_request "Bearer s3cret"
       (VObj [("version", VStr "v99"); ("service", VStr "demorest");
              ("payload", VObj [])]))
    (serving None)
  = routeAndDispatch (router := template_router) (VStr "unknown") "v99/demorest"
      (VObj [("version", VStr "v99"); ("service", VStr "demorest");
             ("payload", VObj [])])
      (serving None)
  /\ handleApi (router := template_router)
       (api_request "Bearer s3cret"
          (VObj [("request_id", VStr "r-1"); ("service", VStr "demorest");
                 ("payload", VStr "")]))
       (serving None)
     = (Ok (nack (VStr "r-1") "INVALID_FIELD" "Missing required field: payload"),
        serving None).
Proof.
  split.
  - exact (proj1 (payload_must_be_truthy (router := template_router) _
                    [("version", VStr "v99"); ("service", VStr "demorest");
                     ("payload", VObj [])]
                    (serving None) (sample_authenticated _ None) eq_refl eq_refl)).
  - exact (proj1 (payload_must_be_truthy (router := template_router) _
                    [("request_id", VStr "r-1"); ("service", VStr "demorest");
                     ("payload", VStr "")]
                    (serving None) (sample_authenticated _ None) eq_refl eq_refl)).
Defined.

(** C2 as stated fails: an authenticated request with a [service] and the
    payload 0, or the payload false, gets the INVALID_FIELD nack. *)
Lemma zero_and_false_payloads_are_rejected :
  default_fetch (router := template_router)
    (api_request "Bearer s3cret"
       (VObj [("version", VStr "v99"); ("service", VStr "demorest");
              ("payload", VNum 0)]))
    (sample_env None) initial
  = (Ok (nack (VStr "unknown") "INVALID_FIELD" "Missing required field: payload"),
     serving None)
  /\ default_fetch (router := template_router)
       (api_request "Bearer s3cret"
          (VObj [("version", VStr "v99"); ("service", VStr "demorest");
                 ("payload", VBool false)]))
       (sample_env None) initial
     = (Ok (nack (VStr "unknown") "INVALID_FIELD" "Missing required field: payload"),
        serving None)
  /\ resp_status
       (nack (VStr "unknown") "INVALID_FIELD" "Missing required field: payload")
     = 400.
Proof. split; [|split]; reflexivity. Qed.

(** C5 on the template: its REST route resolves without a database and
    with one that rejects every query, and no query is made; a key the
    template does not hold gets the same NO_ROUTE nack when there is no
    database, when the query rejects, when no row matches and when the
    row does not parse. *)
Lemma static_table_first_witness :
  resolveRoute (router := template_router) "v99/demorest" (serving None)
  = (Ok (VObj demorest_route), serving None)
  /\ resolveRoute (router := template_router) "v99/demorest"
       (serving (Some rejecting_db))
     = (Ok (VObj demorest_route), serving (Some rejecting_db))
  /\ (routeAndDispatch (router := template_router) (VStr "r-1") "v1/stock"
        (VObj bus_envelope) (serving None)).1
     = Ok (nack (VStr "r-1") "NO_ROUTE" "No route found for v1/stock")
  /\ (routeAndDispatch (router := template_router) (VStr "r-1") "v1/stock"
        (VObj bus_envelope) (serving (Some rejecting_db))).1
     = Ok (nack (VStr "r-1") "NO_ROUTE" "No route found for v1/stock")
  /\ (routeAndDispatch (router := template_router) (VStr "r-1") "v1/stock"
        (VObj bus_envelope) (serving (Some empty_db))).1
     = Ok (nack (VStr "r-1") "NO_ROUTE" "No route found for v1/stock")
  /\ (routeAndDispatch (router := template_router) (VStr "r-1") "v1/stock"
        (VObj bus_envelope) (serving (Some garbled_db))).1
     = Ok (nack (VStr "r-1") "NO_ROUTE" "No route found for v1/stock").
Proof.
  pose proof (fun db =>
    static_table_first (router := template_router) "v99/demorest" VUndef VUndef
      (serving db)) as Hhit.
  pose proof (fun db =>
    proj2 (static_table_first (router := template_router) "v1/stock" (VStr "r-1")
             (VObj bus_envelope) (serving db)) eq_refl) as Hmiss.
  split; [exact (proj1 (proj1 (Hhit None) _ eq_refl eq_refl))|].
  split; [exact (proj1 (proj1 (Hhit (Some rejecting_db)) _ eq_refl eq_refl))|].
  split; [rewrite (proj2 (Hmiss None) VNull eq_refl eq_refl); reflexivity|].
  split; [rewrite (proj2 (Hmiss (Some rejecting_db)) VNull eq_refl eq_refl);
          reflexivity|].
  split; [rewrite (proj2 (Hmiss (Some empty_db)) VNull eq_refl eq_refl); reflexivity|].
  rewrite (proj2 (Hmiss (Some garbled_db)) VNull eq_refl eq_refl); reflexivity.
Defined.


(** C6 on record payloads: the orders route overwrites a spoofed
    [table_name]; a route whose [table_name] is the empty string strips
    it, as a route without one does. *)
Example table_name_on_record_payloads :
  (injectTableName (VObj orders_route)
     (VObj [("service", VStr "orders");
            ("payload", VObj [("table_name", VStr "spoof"); ("sku", VStr "A1")])])
     (serving None)).1
  = Ok (VObj [("service", VStr "orders");
              ("payload", VObj [("table_name", VStr "orders"); ("sku", VStr "A1")])])
  /\ (injectTableName (VObj blank_table_route)
        (VObj [("service", VStr "blank");
               ("payload", VObj [("table_name", VStr "spoof"); ("sku", VStr "A1")])])
        (serving None)).1
     = Ok (VObj [("service", VStr "blank"); ("payload", VObj [("sku", VStr "A1")])])
  /\ (injectTableName (VObj demorest_route)
        (VObj [("service", VStr "demorest");
               ("payload", VObj [("table_name", VStr "spoof"); ("sku", VStr "A1")])])
        (serving None)).1
     = Ok (VObj [("service", VStr "demorest"); ("payload", VObj [("sku", VStr "A1")])]).
Proof. repeat split. Qed.

(** C8 on the example stores: the stored route comes back parsed; a row
    that does not parse, a rejected query and a missing handle all give
    null, the last without a query. *)
Example findRouteFromDB_on_stores :
  (findRouteFromDB "v1/stock" (serving (Some stocked_db))).1 = Ok stored_route
  /\ (findRouteFromDB "v1/stock" (serving (Some garbled_db))).1 = Ok VNull
  /\ (findRouteFromDB "v1/stock" (serving (Some rejecting_db))).1 = Ok VNull
  /\ (findRouteFromDB "v1/other" (serving (Some stocked_db))).1 = Ok VNull
  /\ findRouteFromDB "v1/stock" (serving None) = (Ok VNull, serving None)
  /\ queries (trace (findRouteFromDB "v1/stock" (serving (Some garbled_db))).2)
     = ["v1/stock"]%string.
Proof. vm_compute. repeat split. Qed.

(** C9 on a key kept in the store and on a key kept nowhere. *)
Example resolveRoute_twice :
  (let first :=
     resolveRoute (router := template_router) "v1/stock" (serving (Some stocked_db)) in
   (first.1, (resolveRoute (router := template_router) "v1/stock" first.2).1))
  = (Ok stored_route, Ok stored_route)
  /\ (let first :=
        resolveRoute (router := template_router) "v1/none" (serving (Some stocked_db)) in
      (first.1, (resolveRoute (router := template_router) "v1/none" first.2).1))
     = (Ok VNull, Ok VNull).
Proof. vm_compute. repeat split. Qed.

(** ** The further theorems on concrete requests *)

(** X1 on a header with a lower-case scheme. *)
Lemma handleApi_unauthorized_witness :
  handleApi (router := template_router)
    (api_request "bearer s3cret" (VObj bus_envelope)) initial
  = (Ok (nack (VStr "unknown") "UNAUTHORIZED" "Missing or invalid Authorization header"),
     initial).
Proof.
  apply handleApi_unauthorized. intros auth [= <-]. reflexivity.
Defined.

(** X2 on the sample secret followed by more text. *)
Lemma handleApi_ignores_trailing_text_witness :
  item 1 (split " " "Bearer s3cret and more text") = VStr "s3cret"
  /\ handleApi (router := template_router)
       (with_auth (api_request "-" (VObj bus_envelope)) "Bearer s3cret and more text")
       (serving None)
     = handleApi (router := template_router)
         (with_auth (api_request "-" (VObj bus_envelope)) "Bearer s3cret")
         (serving None).
Proof.
  exact (handleApi_ignores_trailing_text (router := template_router)
           (api_request "-" (VObj bus_envelope)) "s3cret" "and more text"
           (serving None) eq_refl).
Defined.

(** X3 on a wrong token. *)
Lemma token_mismatch_is_rejected_witness :
  handleApi (router := template_router)
    (api_request "Bearer guess" (VObj bus_envelope)) (serving None)
  = (Ok (nack (VStr "unknown") "INVALID_TOKEN" "Token authentication failed"),
     serving None).
Proof.
  apply (token_mismatch_is_rejected _ "Bearer guess" sample_vars);
    [reflexivity|reflexivity|reflexivity|discriminate].
Defined.

(** X4 on a secret of two words, presented as it is. *)
Lemma secret_with_space_locks_out_witness :
  handleApi (router := template_router)
    (api_request "Bearer two words" (VObj bus_envelope))
    {| G_DB := None; G_ENV := Some {[ "DA_GATEWAY_TOKEN" := VStr "two words" ]};
       trace := [] |}
  = (Ok (nack (VStr "unknown") "INVALID_TOKEN" "Token authentication failed"),
     {| G_DB := None; G_ENV := Some {[ "DA_GATEWAY_TOKEN" := VStr "two words" ]};
        trace := [] |}).
Proof.
  apply (secret_with_space_locks_out _ "Bearer two words" "two words"
           {[ "DA_GATEWAY_TOKEN" := VStr "two words" ]}); reflexivity.
Defined.

Lemma unparsed_authenticated (db : option D1) :
  authenticated
    {| in_method := "POST"; in_pathname := "/api";
       in_authorization := Some "Bearer s3cret"; in_json := None |}
    (serving db).
Proof. exists "Bearer s3cret", sample_vars. repeat split. Defined.

(** X5 on a body that is not JSON. *)
Lemma handleApi_invalid_json_witness :
  handleApi (router := template_router)
    {| in_method := "POST"; in_pathname := "/api";
       in_authorization := Some "Bearer s3cret"; in_json := None |}
    (serving None)
  = (Ok (nack (VStr "unknown") "INVALID_JSON" "Malformed JSON body"), serving None).
Proof.
  exact (handleApi_invalid_json (router := template_router) _ (serving None)
           (unparsed_authenticated None) eq_refl).
Defined.

(** X6 on a body that is an array, and on a record with a [request_id]
    and an empty [service]. *)
Lemma service_is_required_witness :
  handleApi (router := template_router)
    (api_request "Bearer s3cret" (VArr [VStr "demorest"])) (serving None)
  = (Ok (nack (VStr "unknown") "INVALID_FIELD" "Missing field: service"), serving None)
  /\ handleApi (router := template_router)
       (api_request "Bearer s3cret"
          (VObj [("request_id", VStr "r-7"); ("service", VStr "");
                 ("payload", VObj [])]))
       (serving None)
     = (Ok (nack (VStr "r-7") "INVALID_FIELD" "Missing field: service"), serving None).
Proof.
  split.
  - exact (service_is_required (router := template_router) _ (VArr [VStr "demorest"])
             VUndef VUndef (serving None) (sample_authenticated _ None)
             eq_refl eq_refl eq_refl eq_refl).
  - exact (service_is_required (router := template_router) _
             (VObj [("request_id", VStr "r-7"); ("service", VStr "");
                    ("payload", VObj [])])
             (VStr "r-7") (VStr "") (serving None) (sample_authenticated _ None)
             eq_refl eq_refl eq_refl eq_refl).
Defined.

(** X7 on the sample credentials. *)
Lemma null_body_throws_witness :
  exists message,
    handleApi (router := template_router) (api_request "Bearer s3cret" VNull)
      (serving None)
    = (Throw message, serving None).
Proof.
  exact (null_body_throws (router := template_router) _ (serving None)
           (sample_authenticated _ None) eq_refl).
Defined.

(** X8 on the orders route: the backend's 200 "ok" comes back as it is. *)
Lemma rest_answer_passes_through_witness :
  (dispatch (VObj orders_route) (VObj bus_envelope) (serving None)).1
  = Ok {| resp_status := 200; resp_headers := []; resp_body := Some "ok" |}.
Proof.
  rewrite (rest_answer_passes_through orders_route bus_envelope sample_vars
             {| req_url := "https://orders.example.com";
                req_method := "POST";
                req_headers := [("Content-Type", "application/json");
                                ("Authorization", "Bearer T1")]%string;
                req_body := JSON_stringify (VObj bus_envelope) |}
             {| resp_status := 200; resp_headers := []; resp_body := Some "ok" |}
             (serving None)); reflexivity.
Defined.

(** X9 with the network down, for the template's two routes, and for an
    envelope whose [type] does not print. *)
Lemma rejected_call_is_500_witness :
  (dispatch (runtime := offline_runtime) (VObj demorest_route) (VObj bus_envelope)
     (serving None)).1
  = Ok (jsonError (runtime := offline_runtime) "Gateway processing failed" 500)
  /\ (dispatch (runtime := offline_runtime) (VObj demoably_route) (VObj bus_envelope)
        (serving None)).1
     = Ok (jsonError (runtime := offline_runtime) "Gateway processing failed" 500)
  /\ (dispatch (runtime := offline_runtime) (VObj demorest_route)
        (VObj [("payload", VObj []); ("type", VObj [("toString", VNum 1)])])
        (serving None)).1
     = Throw "Cannot convert object to primitive value".
Proof.
  split; [|split].
  - destruct (rejected_call_is_500 (runtime := offline_runtime) demorest_route
                bus_envelope sample_vars
                {| req_url := "https://v1-users-api.example.com";
                   req_method := "POST";
                   req_headers := [("Content-Type", "application/json");
                                   ("Authorization", "Bearer R1")]%string;
                   req_body := JSON_stringify (runtime := offline_runtime)
                                 (VObj bus_envelope) |}
                (serving None) eq_refl
                (or_introl (conj eq_refl eq_refl)) eq_refl) as (line & H & _).
    rewrite H. reflexivity.
  - destruct (rejected_call_is_500 (runtime := offline_runtime) demoably_route
                bus_envelope sample_vars
                {| req_url := "https://rest.ably.io/channels/system_bus_v1/messages";
                   req_method := "POST";
                   req_headers := [("Authorization", "Basic a2V5OnNlY3JldCE=");
                                   ("Content-Type", "application/json")]%string;
                   req_body :=
                     JSON_stringify (runtime := offline_runtime)
                       (VArr [VObj [("name", VStr "gateway-event");
                                    ("data", VObj bus_envelope)]]) |}
                (serving None) eq_refl
                (or_intror (conj eq_refl eq_refl)) eq_refl) as (line & H & _).
    rewrite H. reflexivity.
  - rewrite (rejected_call_is_500 (runtime := offline_runtime) demorest_route
               [("payload", VObj []); ("type", VObj [("toString", VNum 1)])]
               sample_vars
               {| req_url := "https://v1-users-api.example.com";
                  req_method := "POST";
                  req_headers := [("Content-Type", "application/json");
                                  ("Authorization", "Bearer R1")]%string;
                  req_body :=
                    JSON_stringify (runtime := offline_runtime)
                      (VObj [("payload", VObj []);
                             ("type", VObj [("toString", VNum 1)])]) |}
               (serving None) eq_refl
               (or_introl (conj eq_refl eq_refl)) eq_refl).
    reflexivity.
Defined.

(** X10 with a bus that answers 429 (the gateway answers 502) and with
    one that answers 200. *)
Lemma ably_answer_witness :
  (exists answer,
     (dispatch (runtime := busy_runtime) (VObj demoably_route) (VObj bus_envelope)
        (serving None)).1 = Ok answer
     /\ resp_status answer = 502)
  /\ (exists answer,
        (dispatch (VObj demoably_route) (VObj bus_envelope) (serving None)).1
        = Ok answer
        /\ resp_status answer = 200).
Proof.
  split.
  - destruct (ably_answer (runtime := busy_runtime) demoably_route bus_envelope
                sample_vars
                {| req_url := "https://rest.ably.io/channels/system_bus_v1/messages";
                   req_method := "POST";
                   req_headers := [("Authorization", "Basic a2V5OnNlY3JldCE=");
                                   ("Content-Type", "application/json")]%string;
                   req_body :=
                     JSON_stringify (runtime := busy_runtime)
                       (VArr [VObj [("name", VStr "gateway-event");
                                    ("data", VObj bus_envelope)]]) |}
                {| resp_status := 429; resp_headers := [];
                   resp_body := Some "rate limited" |}
                (serving None) eq_refl eq_refl eq_refl ltac:(reflexivity))
      as (answer & channelText & _ & H & _ & Hstatus & _).
    exists answer. rewrite H. split; [reflexivity|exact Hstatus].
  - destruct (ably_answer (runtime := stub_runtime) demoably_route bus_envelope
                sample_vars
                {| req_url := "https://rest.ably.io/channels/system_bus_v1/messages";
                   req_method := "POST";
                   req_headers := [("Authorization", "Basic a2V5OnNlY3JldCE=");
                                   ("Content-Type", "application/json")]%string;
                   req_body :=
                     JSON_stringify (runtime := stub_runtime)
                       (VArr [VObj [("name", VStr "gateway-event");
                                    ("data", VObj bus_envelope)]]) |}
                {| resp_status := 200; resp_headers := []; resp_body := Some "ok" |}
                (serving None) eq_refl eq_refl eq_refl ltac:(reflexivity))
      as (answer & channelText & _ & H & _ & Hstatus & _).
    exists answer. rewrite H. split; [reflexivity|exact Hstatus].
Defined.

(** X12 on the orders route and an envelope with a spoofed table name. *)
Lemma table_name_step_keeps_envelope_witness :
  exists envelope' : list (string * value),
    (injectTableName (VObj orders_route)
       (VObj [("request_id", VStr "r-1"); ("service", VStr "orders");
              ("payload", VObj [("sku", VStr "A1"); ("table_name", VStr "spoof")]);
              ("version", VStr "v1")])
       (serving None)).1 = Ok (VObj envelope')
    /\ map fst envelope' = ["request_id"; "service"; "payload"; "version"]%string
    /\ forall k, String.eqb k "payload" = false ->
         lookup_prop k envelope'
         = lookup_prop k
             [("request_id", VStr "r-1"); ("service", VStr "orders");
              ("payload", VObj [("sku", VStr "A1"); ("table_name", VStr "spoof")]);
              ("version", VStr "v1")].
Proof.
  exact (table_name_step_keeps_envelope orders_route
           [("request_id", VStr "r-1"); ("service", VStr "orders");
            ("payload", VObj [("sku", VStr "A1"); ("table_name", VStr "spoof")]);
            ("version", VStr "v1")]
           "https://orders.example.com" (serving None) eq_refl).
Defined.

(** X13 on the same route and envelope. *)
Lemma table_name_step_idempotent_witness :
  exists envelope' : list (string * value),
    (injectTableName (VObj orders_route)
       (VObj [("request_id", VStr "r-1"); ("service", VStr "orders");
              ("payload", VObj [("sku", VStr "A1"); ("table_name", VStr "spoof")]);
              ("version", VStr "v1")])
       (serving None)).1 = Ok (VObj envelope')
    /\ (injectTableName (VObj orders_route) (VObj envelope')
          (injectTableName (VObj orders_route)
             (VObj [("request_id", VStr "r-1"); ("service", VStr "orders");
                    ("payload", VObj [("sku", VStr "A1"); ("table_name", VStr "spoof")]);
                    ("version", VStr "v1")])
             (serving None)).2).1
       = Ok (VObj envelope').
Proof.
  exact (table_name_step_idempotent orders_route
           [("request_id", VStr "r-1"); ("service", VStr "orders");
            ("payload", VObj [("sku", VStr "A1"); ("table_name", VStr "spoof")]);
            ("version", VStr "v1")]
           "https://orders.example.com" (serving None) eq_refl).
Defined.

(** The publish URL for a channel name with a slash, a question mark and
    a space, and the table_name step on a spoofed payload, once and
    twice. *)
Example further_evaluations :
  map req_url
    (requests
       (trace (handleAbly (VObj [("type", VStr "ABLY"); ("token", VStr "k");
                                 ("channelName", VStr "a/b?c d")])
                 (VObj bus_envelope) (serving None)).2))
  = ["https://rest.ably.io/channels/a%2Fb%3Fc%20d/messages"]%string
  /\ (injectTableName (VObj orders_route)
        (VObj [("request_id", VStr "r-1"); ("service", VStr "orders");
               ("payload", VObj [("sku", VStr "A1"); ("table_name", VStr "spoof")]);
               ("version", VStr "v1")])
        (serving None)).1
     = Ok (VObj [("request_id", VStr "r-1"); ("service", VStr "orders");
                 ("payload", VObj [("sku", VStr "A1"); ("table_name", VStr "orders")]);
                 ("version", VStr "v1")])
  /\ (injectTableName (VObj orders_route)
        (VObj [("request_id", VStr "r-1"); ("service", VStr "orders");
               ("payload", VObj [("sku", VStr "A1"); ("table_name", VStr "orders")]);
               ("version", VStr "v1")])
        (serving None)).1
     = Ok (VObj [("request_id", VStr "r-1"); ("service", VStr "orders");
                 ("payload", VObj [("sku", VStr "A1"); ("table_name", VStr "orders")]);
                 ("version", VStr "v1")]).
Proof. vm_compute. repeat split. Qed.

(** X15 on the orders route: one POST to its target, carrying the whole
    envelope as JSON text. *)
Lemma dispatch_REST_forwards_witness :
  exists r : Request,
    restRequest orders_route sample_vars (VObj bus_envelope) = Ok r
    /\ requests (trace (dispatch (VObj orders_route) (VObj bus_envelope)
                          (serving None)).2) = [r]
    /\ req_method r = "POST"
    /\ ToString (VStr "https://orders.example.com") = Ok (req_url r)
    /\ req_body r = JSON_stringify (VObj bus_envelope).
Proof.
  eexists. split; [reflexivity|].
  exact (dispatch_REST_forwards orders_route (VObj bus_envelope) sample_vars
           (serving None) eq_refl eq_refl).
Defined.
